(** * CSV to JSON converter: a shallow embedding of [main.py]

    The script is a linear pipeline over a tabular-data library: read the
    uploaded CSV into a table, optionally sample it, turn it into one of three
    JSON shapes, show the result and offer it as a base64 download link.

    The embedding follows the script statement by statement.  Library calls
    are given by their documented behaviour on the values the script feeds
    them:
    - a table is a list of labelled rows under a list of column names;
    - [json.loads (df.to_json (orient))] is one function from tables to
      Python values;
    - widgets append to the page: the page is a list of events, threaded
      through a state-and-exception monad;
    - the random draw of [df.sample] is an explicit argument.

    IEEE doubles are kept abstract: the type [F] of floats and the two
    library functions that look inside a float are section variables. *)

From Stdlib Require Import ZArith NArith List Bool Lia Permutation.
From Stdlib.Strings Require Import Ascii String Byte.
From Stdlib.Numbers Require Import DecimalString DecimalZ.
Import ListNotations.

Set Warnings "-register-all".

Local Open Scope string_scope.
Local Open Scope Z_scope.

(* ------------------------------------------------------------------ *)
(** ** Exceptions *)

(** A call either returns or raises; an exception carries its message. *)
Inductive result (A : Type) : Type :=
| Ok (a : A)
| Raise (msg : string).
Arguments Ok {A} a.
Arguments Raise {A} msg.

Definition result_bind {A B} (r : result A) (k : A -> result B) : result B :=
  match r with
  | Ok a => k a
  | Raise e => Raise e
  end.

(* ------------------------------------------------------------------ *)
(** ** Python built-ins the script uses *)

Module Py.

(** [str(n)] for an integer. *)
Definition str_of_int (n : Z) : string :=
  NilEmpty.string_of_int (Z.to_int n).

(** [len(s)] for a string. *)
Definition len_str (s : string) : Z := Z.of_nat (String.length s).

(** [s[:n]] for [0 <= n]. *)
Fixpoint take_str (n : nat) (s : string) : string :=
  match n, s with
  | O, _ => EmptyString
  | S _, EmptyString => EmptyString
  | S n', String c s' => String c (take_str n' s')
  end.

(** [s[n:]] for [0 <= n]. *)
Fixpoint drop_str (n : nat) (s : string) : string :=
  match n, s with
  | O, _ => s
  | S _, EmptyString => EmptyString
  | S n', String _ s' => drop_str n' s'
  end.

Definition slice_to (n : Z) (s : string) : string := take_str (Z.to_nat n) s.

(** [s.split(sep)] for a one-character separator: the pieces between
    consecutive separators, at least one piece. *)
Fixpoint split_on (sep : ascii) (s : string) : list string :=
  match s with
  | EmptyString => [EmptyString]
  | String c s' =>
      if Ascii.eqb c sep then EmptyString :: split_on sep s'
      else match split_on sep s' with
           | [] => [String c EmptyString]
           | p :: ps => String c p :: ps
           end
  end.

(** [l[0]]; an empty list raises [IndexError]. *)
Definition item0 {A} (l : list A) : result A :=
  match l with
  | [] => Raise "list index out of range"
  | x :: _ => Ok x
  end.

(** [range(0, stop, step)] for [0 < step]: the multiples of [step] below
    [stop]; there are [(stop + step - 1) // step] of them. *)
Definition range_step (stop step : Z) : list Z :=
  map (fun k => Z.of_nat k * step)
      (seq 0 (Z.to_nat ((stop + step - 1) / step))).

(** *** Dictionaries

    A [dict] keeps its keys in insertion order and holds each key once. *)
Definition dict (V : Type) := list (string * V).

Fixpoint dict_get {V} (k : string) (d : dict V) : option V :=
  match d with
  | [] => None
  | (k', v) :: d' => if String.eqb k k' then Some v else dict_get k d'
  end.

Definition dict_keys {V} (d : dict V) : list string := map fst d.

(** [d[k] = v]: an existing key keeps its place and takes the new value, a
    new key goes last. *)
Fixpoint dict_set {V} (d : dict V) (k : string) (v : V) : dict V :=
  match d with
  | [] => [(k, v)]
  | (k', v') :: d' =>
      if String.eqb k k' then (k', v) :: d' else (k', v') :: dict_set d' k v
  end.

(** [d.update(other)]. *)
Definition dict_update {V} (d other : dict V) : dict V :=
  fold_left (fun acc kv => dict_set acc (fst kv) (snd kv)) other d.

(** The dictionary built from the members of a JSON object, in the order in
    which they appear (a repeated name keeps its last value). *)
Definition dict_of_items {V} (items : list (string * V)) : dict V :=
  dict_update [] items.

End Py.

(* ------------------------------------------------------------------ *)
(** ** Python values and tables *)

(** What [json.loads] returns and [json.dumps] accepts. *)
Inductive pyval (F : Type) : Type :=
| PNone
| PBool (b : bool)
| PInt (z : Z)
| PFloat (f : F)
| PStr (s : string)
| PList (l : list (pyval F))
| PDict (d : list (string * pyval F)).
Arguments PNone {F}.
Arguments PBool {F} b.
Arguments PInt {F} z.
Arguments PFloat {F} f.
Arguments PStr {F} s.
Arguments PList {F} l.
Arguments PDict {F} d.

(** A cell of a parsed table: missing, or a value of the column's type. *)
Inductive cell (F : Type) : Type :=
| CNaN
| CBool (b : bool)
| CInt (z : Z)
| CFloat (f : F)
| CStr (s : string).
Arguments CNaN {F}.
Arguments CBool {F} b.
Arguments CInt {F} z.
Arguments CFloat {F} f.
Arguments CStr {F} s.

(** A table: the column names, and the rows in order, each with its index
    label.  Labels are integers: the parser numbers the rows [0 .. N-1], and
    slicing and sampling carry a row's label along with it. *)
Record DataFrame (F : Type) : Type := mkDataFrame {
  columns : list string;
  rows : list (Z * list (cell F))
}.
Arguments mkDataFrame {F} columns rows.
Arguments columns {F} d.
Arguments rows {F} d.

Module Pd.
Section Frames.
Context {F : Type}.

(** [df.index] *)
Definition index (df : DataFrame F) : list Z := map fst (rows df).

(** [len(df)] *)
Definition len (df : DataFrame F) : Z := Z.of_nat (List.length (rows df)).

(** [df.head(n)] *)
Definition head (n : nat) (df : DataFrame F) : DataFrame F :=
  mkDataFrame (columns df) (firstn n (rows df)).

(** [df.iloc[a:b]] for [0 <= a]: rows at positions [a .. b-1], with their
    labels; positions past the end are left out. *)
Definition iloc (a b : Z) (df : DataFrame F) : DataFrame F :=
  mkDataFrame (columns df)
              (firstn (Z.to_nat (b - a)) (skipn (Z.to_nat a) (rows df))).

(** [df.take(positions)]: the rows at the given positions, in the given
    order; a position past the end raises. *)
Fixpoint take_rows (rs : list (Z * list (cell F))) (positions : list nat)
  : result (list (Z * list (cell F))) :=
  match positions with
  | [] => Ok []
  | p :: ps =>
      match nth_error rs p with
      | None => Raise "indices are out-of-bounds"
      | Some r => result_bind (take_rows rs ps) (fun out => Ok (r :: out))
      end
  end.

Definition take (df : DataFrame F) (positions : list nat)
  : result (DataFrame F) :=
  result_bind (take_rows (rows df) positions)
              (fun rs => Ok (mkDataFrame (columns df) rs)).

(** [df.sample(n)]: [n] positions drawn without replacement, then [take].
    The draw is the argument [draw]; the generator's contract is
    [valid_draw]. *)
Definition sample (draw : list nat) (n : Z) (df : DataFrame F)
  : result (DataFrame F) :=
  if n <? 0 then
    Raise "A negative number of rows requested. Please provide `n` >= 0."
  else if len df <? n then
    Raise "Cannot take a larger sample than population when 'replace=False'"
  else take df draw.

(** The rows of a chunked read: the first [n] rows, then the next [n], ...;
    a table with no rows is read as one empty chunk. *)
Fixpoint chunk_rows (fuel : nat) (n : nat) (rs : list (Z * list (cell F)))
  : list (list (Z * list (cell F))) :=
  match fuel with
  | O => []
  | S fuel' =>
      match skipn n rs with
      | [] => [firstn n rs]
      | rest => firstn n rs :: chunk_rows fuel' n rest
      end
  end.

Definition chunks (n : Z) (df : DataFrame F) : list (DataFrame F) :=
  map (mkDataFrame (columns df))
      (chunk_rows (S (List.length (rows df))) (Z.to_nat n) (rows df)).

(** [pd.concat(frames)] for frames that share their columns. *)
Definition concat (frames : list (DataFrame F)) : result (DataFrame F) :=
  match frames with
  | [] => Raise "No objects to concatenate"
  | d :: _ => Ok (mkDataFrame (columns d) (List.concat (map rows frames)))
  end.

End Frames.
End Pd.

(* ------------------------------------------------------------------ *)
(** ** Text and bytes *)

Definition dquote : string := String "034"%char EmptyString.
Definition newline : string := String "010"%char EmptyString.

Module Utf8.

Definition byte_of_N (n : N) : byte :=
  match Byte.of_N (n mod 256) with
  | Some b => b
  | None => x00
  end.

(** The bytes of one character: one byte below U+0080, two bytes from
    U+0080 to U+00FF. *)
Definition encode_char (c : ascii) : list byte :=
  let n := N_of_ascii c in
  if (n <? 128)%N then [byte_of_N n]
  else [byte_of_N (192 + n / 64); byte_of_N (128 + n mod 64)].

(** [s.encode()] *)
Fixpoint encode (s : string) : list byte :=
  match s with
  | EmptyString => []
  | String c s' => (encode_char c ++ encode s')%list
  end.

(** [b.decode()] for ASCII bytes. *)
Definition decode_ascii (b : list byte) : string := string_of_list_byte b.

(** The ASCII bytes of a string of ASCII characters. *)
Definition ascii_bytes (s : string) : list byte := list_byte_of_string s.

End Utf8.

Module Base64.

Definition alphabet : list byte :=
  list_byte_of_string
    "ABCDEFGHIJKLMNOPQRSTUVWXYZabcdefghijklmnopqrstuvwxyz0123456789+/".

Definition pad : byte := "="%byte.

(** The character of a 6-bit value. *)
Definition sextet_char (n : N) : byte := nth (N.to_nat n) alphabet pad.

Fixpoint index_of (c : byte) (l : list byte) (i : N) : option N :=
  match l with
  | [] => None
  | x :: l' => if Byte.eqb c x then Some i else index_of c l' (N.succ i)
  end.

(** The 6-bit value of a character of the alphabet. *)
Definition char_sextet (c : byte) : option N := index_of c alphabet 0%N.

(** The four 6-bit values of three bytes, and back. *)
Definition s0 (a : N) : N := (a / 4)%N.
Definition s1 (a b : N) : N := ((a mod 4) * 16 + b / 16)%N.
Definition s2 (b c : N) : N := ((b mod 16) * 4 + c / 64)%N.
Definition s3 (c : N) : N := (c mod 64)%N.

Definition b0 (x0 x1 : N) : N := (x0 * 4 + x1 / 16)%N.
Definition b1 (x1 x2 : N) : N := ((x1 mod 16) * 16 + x2 / 4)%N.
Definition b2 (x2 x3 : N) : N := ((x2 mod 4) * 64 + x3)%N.

(** [base64.b64encode(bs)]: three bytes give four characters; a last group
    of one or two bytes is filled with zero bits and padded with [=]. *)
Fixpoint b64encode (bs : list byte) : list byte :=
  match bs with
  | [] => []
  | [a] =>
      let a := Byte.to_N a in
      [sextet_char (s0 a); sextet_char (s1 a 0); pad; pad]
  | [a; b] =>
      let a := Byte.to_N a in
      let b := Byte.to_N b in
      [sextet_char (s0 a); sextet_char (s1 a b); sextet_char (s2 b 0); pad]
  | a :: b :: c :: rest =>
      let a := Byte.to_N a in
      let b := Byte.to_N b in
      let c := Byte.to_N c in
      sextet_char (s0 a) :: sextet_char (s1 a b) :: sextet_char (s2 b c)
        :: sextet_char (s3 c) :: b64encode rest
  end.

(** Base64 decoding (RFC 4648): four characters give three bytes; padding
    is accepted in the last group only; anything else is refused. *)
Fixpoint b64decode (cs : list byte) : option (list byte) :=
  match cs with
  | [] => Some []
  | c0 :: c1 :: c2 :: c3 :: rest =>
      match char_sextet c0, char_sextet c1 with
      | Some x0, Some x1 =>
          if Byte.eqb c2 pad then
            if Byte.eqb c3 pad then
              match rest with
              | [] => Some [Utf8.byte_of_N (b0 x0 x1)]
              | _ => None
              end
            else None
          else
            match char_sextet c2 with
            | Some x2 =>
                if Byte.eqb c3 pad then
                  match rest with
                  | [] => Some [Utf8.byte_of_N (b0 x0 x1);
                                Utf8.byte_of_N (b1 x1 x2)]
                  | _ => None
                  end
                else
                  match char_sextet c3 with
                  | Some x3 =>
                      option_map
                        (fun tl => Utf8.byte_of_N (b0 x0 x1)
                                   :: Utf8.byte_of_N (b1 x1 x2)
                                   :: Utf8.byte_of_N (b2 x2 x3) :: tl)
                        (b64decode rest)
                  | None => None
                  end
            | None => None
            end
      | _, _ => None
      end
  | _ => None
  end.

End Base64.

(** [json.dumps(value, indent=...)] with the default [ensure_ascii]. *)
Module Json.
Section Dumps.
Context {F : Type}.

(** [float.__repr__], as the encoder writes a float. *)
Variable float_repr : F -> string.

Definition hex_digit (n : N) : ascii :=
  match n with
  | 0%N => "0" | 1%N => "1" | 2%N => "2" | 3%N => "3" | 4%N => "4"
  | 5%N => "5" | 6%N => "6" | 7%N => "7" | 8%N => "8" | 9%N => "9"
  | 10%N => "a" | 11%N => "b" | 12%N => "c" | 13%N => "d" | 14%N => "e"
  | _ => "f"
  end%char.

(** One character inside a JSON string: printable ASCII stays, except the
    quote and the backslash; everything else is escaped. *)
Definition escape_char (c : ascii) : string :=
  let n := N_of_ascii c in
  if (n =? 34)%N then "\" ++ dquote
  else if (n =? 92)%N then "\\"
  else if (n =? 8)%N then "\b"
  else if (n =? 12)%N then "\f"
  else if (n =? 10)%N then "\n"
  else if (n =? 13)%N then "\r"
  else if (n =? 9)%N then "\t"
  else if ((32 <=? n) && (n <=? 126))%N then String c EmptyString
  else "\u00" ++ String (hex_digit (n / 16)) (String (hex_digit (n mod 16)) EmptyString).

Fixpoint escape (s : string) : string :=
  match s with
  | EmptyString => EmptyString
  | String c s' => escape_char c ++ escape s'
  end.

Definition encode_str (s : string) : string := dquote ++ escape s ++ dquote.

Fixpoint spaces (n : nat) : string :=
  match n with
  | O => EmptyString
  | S n' => String " "%char (spaces n')
  end.

Definition newline_indent (indent level : nat) : string :=
  newline ++ spaces (indent * level).

(** The text of a value that starts at nesting depth [level]. *)
Fixpoint dumps_at (indent level : nat) (v : pyval F) {struct v} : string :=
  match v with
  | PNone => "null"
  | PBool true => "true"
  | PBool false => "false"
  | PInt z => Py.str_of_int z
  | PFloat f => float_repr f
  | PStr s => encode_str s
  | PList [] => "[]"
  | PList l =>
      "[" ++ newline_indent indent (S level)
          ++ String.concat ("," ++ newline_indent indent (S level))
               (map (dumps_at indent (S level)) l)
          ++ newline_indent indent level ++ "]"
  | PDict [] => "{}"
  | PDict d =>
      "{" ++ newline_indent indent (S level)
          ++ String.concat ("," ++ newline_indent indent (S level))
               (map (fun kv => let '(k, x) := kv in
                               encode_str k ++ ": " ++ dumps_at indent (S level) x)
                    d)
          ++ newline_indent indent level ++ "}"
  end.

Definition dumps (indent : nat) (v : pyval F) : string := dumps_at indent 0 v.

End Dumps.
End Json.

(* ------------------------------------------------------------------ *)
(** ** Checks on tables *)

Fixpoint is_unique {A} (eqb : A -> A -> bool) (l : list A) : bool :=
  match l with
  | [] => true
  | x :: l' => negb (existsb (eqb x) l') && is_unique eqb l'
  end.

Module Table.
Section Checks.
Context {F : Type}.

(** [df.index.is_unique] and [df.columns.is_unique] *)
Definition index_is_unique (df : DataFrame F) : bool :=
  is_unique Z.eqb (Pd.index df).

Definition columns_is_unique (df : DataFrame F) : bool :=
  is_unique String.eqb (columns df).

(** Every row has one cell per column. *)
Definition rectangular (df : DataFrame F) : bool :=
  forallb (fun r => Nat.eqb (List.length (snd r)) (List.length (columns df)))
          (rows df).

(** The labels are the row positions [0 .. N-1]. *)
Definition positional_index (df : DataFrame F) : bool :=
  forallb (fun p => Z.eqb (fst p) (Z.of_nat (snd p)))
          (combine (Pd.index df) (seq 0 (List.length (rows df)))).

(** What the parser returns: a rectangular table whose column names are
    distinct (repeated names of the header are renamed) and whose rows are
    numbered from 0. *)
Definition parsed (df : DataFrame F) : bool :=
  rectangular df && columns_is_unique df && positional_index df.

(** What the generator returns for [n] draws without replacement from a
    population of [population] rows: [n] distinct positions. *)
Definition valid_draw (population : nat) (n : Z) (draw : list nat) : bool :=
  Z.eqb (Z.of_nat (List.length draw)) n
  && is_unique Nat.eqb draw
  && forallb (fun p => Nat.ltb p population) draw.

End Checks.
End Table.

(* ------------------------------------------------------------------ *)
(** ** The page *)

(** What a run puts on the page, in order. *)
Inductive event (F : Type) : Type :=
| Title (s : string)
| Write (s : string)
| JsonView (v : pyval F)
| Warning (s : string)
| Spinner (s : string)
| Subheader (s : string)
| DataframeView (df : DataFrame F)
| Info (s : string)
| Radio (label : string) (options : list string)
| Checkbox (label : string)
| Slider (label : string) (min_value max_value value : Z)
| Button (label : string)
| Progress (num den : Z)
| ProgressEmpty
| StatusText (s : string)
| StatusEmpty
| Sleep (milliseconds : Z)
| Expander (label : string)
| Code (s : string)
| Markdown (s : string) (unsafe_allow_html : bool)
| ErrorBox (s : string).
Arguments Title {F} s.
Arguments Write {F} s.
Arguments JsonView {F} v.
Arguments Warning {F} s.
Arguments Spinner {F} s.
Arguments Subheader {F} s.
Arguments DataframeView {F} df.
Arguments Info {F} s.
Arguments Radio {F} label options.
Arguments Checkbox {F} label.
Arguments Slider {F} label min_value max_value value.
Arguments Button {F} label.
Arguments Progress {F} num den.
Arguments ProgressEmpty {F}.
Arguments StatusText {F} s.
Arguments StatusEmpty {F}.
Arguments Sleep {F} milliseconds.
Arguments Expander {F} label.
Arguments Code {F} s.
Arguments Markdown {F} s unsafe_allow_html.
Arguments ErrorBox {F} s.

(** Events that show JSON or carry a link. *)
Definition shows_json {F} (e : event F) : bool :=
  match e with
  | JsonView _ | Code _ | Markdown _ true | Expander _ => true
  | _ => false
  end.

(** Events that show rows of the table. *)
Definition shows_table {F} (e : event F) : bool :=
  match e with
  | DataframeView _ | Info _ => true
  | _ => false
  end.

Definition is_error {F} (e : event F) : bool :=
  match e with
  | ErrorBox _ => true
  | _ => false
  end.

(** A computation that writes to the page and may raise: the page written
    so far stays when it raises. *)
Definition ui (F A : Type) : Type :=
  list (event F) -> list (event F) * result A.

Module UI.
Section Monad.
Context {F : Type}.

Definition ret {A} (a : A) : ui F A := fun page => (page, Ok a).

Definition bind {A B} (m : ui F A) (k : A -> ui F B) : ui F B :=
  fun page =>
    match m page with
    | (page', Ok a) => k a page'
    | (page', Raise e) => (page', Raise e)
    end.

Definition show (e : event F) : ui F unit :=
  fun page => ((page ++ [e])%list, Ok tt).

Definition call {A} (r : result A) : ui F A := fun page => (page, r).

(** [try: body except Exception as e: handler(e)] *)
Definition try_except {A} (body : ui F A) (handler : string -> ui F A)
  : ui F A :=
  fun page =>
    match body page with
    | (page', Ok a) => (page', Ok a)
    | (page', Raise e) => handler e page'
    end.

(** [for x in xs: acc = body(acc, x)] *)
Fixpoint for_each {A S} (xs : list A) (body : S -> A -> ui F S) (acc : S)
  : ui F S :=
  match xs with
  | [] => ret acc
  | x :: xs' => bind (body acc x) (for_each xs' body)
  end.

(** [m] only adds events that satisfy [P], whatever it returns. *)
Definition appends {A} (P : event F -> Prop) (m : ui F A) : Prop :=
  forall page, exists evs,
    fst (m page) = (page ++ evs)%list /\ Forall P evs.

End Monad.
End UI.

Declare Scope ui_scope.
Delimit Scope ui_scope with ui.
Notation "x <- m ;; k" := (UI.bind m (fun x => k))
  (at level 61, m at next level, right associativity) : ui_scope.
Notation "m ;; k" := (UI.bind m (fun _ => k))
  (at level 61, right associativity) : ui_scope.

(* ------------------------------------------------------------------ *)
(** ** The script *)

(** The uploaded file. *)
Module File.
Record t : Type := mk {
  name : string;
  type : string;
  size : Z;
  content : list byte
}.
End File.

(** The three choices of the "JSON Structure" radio button. *)
Inductive orientation : Type := Records | Split | Index.

Definition orientation_label (o : orientation) : string :=
  match o with
  | Records => "Records"
  | Split => "Split"
  | Index => "Index"
  end.

(** The state of the widgets in one run of the script, and the draw of the
    random generator. *)
Record session : Type := mkSession {
  uploaded_file : option File.t;
  orientation_choice : orientation;
  use_full_dataset : bool;
  slider_value : Z;
  convert_clicked : bool;
  rng_draw : list nat
}.

(** [d[k]] *)
Definition getitem {V} (d : Py.dict V) (k : string) : result V :=
  match Py.dict_get k d with
  | Some v => Ok v
  | None => Raise ("'" ++ k ++ "'")
  end.

(** Two decimals of [n / 1024], as [f"{n / 1024:.2f}"] prints them for
    [0 <= n]: the quotient is exact, and a tie goes to the even digit. *)
Definition two_digits (n : Z) : string :=
  if n <? 10 then "0" ++ Py.str_of_int n else Py.str_of_int n.

Definition format_kb (n : Z) : string :=
  let q := (n * 25) / 256 in
  let r := (n * 25) mod 256 in
  let h := if r <? 128 then q
           else if 128 <? r then q + 1
           else if Z.even q then q else q + 1 in
  Py.str_of_int (h / 100) ++ "." ++ two_digits (h mod 100).

(** The download name: [f"{uploaded_file.name.split('.')[0]}.json"] *)
Definition download_name (name : string) : result string :=
  result_bind (Py.item0 (Py.split_on "."%char name))
              (fun base => Ok (base ++ ".json")).

Definition truncation_marker : string := newline ++ "... (truncated)".

Definition link_prefix : string :=
  "<a href=" ++ dquote ++ "data:file/json;base64,".

Definition link_suffix (filename : string) : string :=
  dquote ++ " download=" ++ dquote ++ filename ++ dquote
    ++ ">Download JSON file</a>".

(** The payload of a download link: the text between [base64,] and the
    closing quote of the [href]. *)
Fixpoint until_quote (s : string) : string :=
  match s with
  | EmptyString => EmptyString
  | String c s' =>
      if Ascii.eqb c "034"%char then EmptyString else String c (until_quote s')
  end.

Definition quote_byte : byte := "034"%byte.

Definition link_payload (href : string) : string :=
  until_quote (Py.drop_str (String.length link_prefix) href).

(** What a browser saves from the link: the decoded payload. *)
Definition downloaded_bytes (href : string) : option (list byte) :=
  Base64.b64decode (Utf8.ascii_bytes (link_payload href)).

Section Script.
Context {F : Type}.

(** What the table writer prints for a float and [json.loads] reads back:
    nothing ([null]) for NaN and the infinities, else the float nearest to
    the ten-digit rendering. *)
Variable float_json : F -> option F.

(** [float.__repr__] *)
Variable float_repr : F -> string.

(** [pd.read_csv] on the bytes of the upload. *)
Variable read_csv : list byte -> result (DataFrame F).

Local Open Scope ui_scope.

(** A cell as it comes back from [json.loads (df.to_json (...))]. *)
Definition cell_json (c : cell F) : pyval F :=
  match c with
  | CNaN => PNone
  | CBool b => PBool b
  | CInt z => PInt z
  | CFloat f => match float_json f with
                | Some g => PFloat g
                | None => PNone
                end
  | CStr s => PStr s
  end.

(** A row as a mapping from column name to value. *)
Definition row_object (cols : list string) (cells : list (cell F)) : pyval F :=
  PDict (Py.dict_of_items (combine cols (map cell_json cells))).

(** The members of the "index" shape: the label as text, then the row. *)
Definition index_items (df : DataFrame F) : list (string * pyval F) :=
  map (fun r => (Py.str_of_int (fst r), row_object (columns df) (snd r)))
      (rows df).

(** [json.loads(df.to_json(orient=orient))].  The writer refuses repeated
    index labels for "index" and repeated column names for "index" and
    "records". *)
Definition to_json_loads (orient : string) (df : DataFrame F)
  : result (pyval F) :=
  if String.eqb orient "records" then
    if negb (Table.columns_is_unique df) then
      Raise "DataFrame columns must be unique for orient='records'."
    else
      Ok (PList (map (fun r => row_object (columns df) (snd r)) (rows df)))
  else if String.eqb orient "split" then
    Ok (PDict (Py.dict_of_items
         [ ("columns", PList (map PStr (columns df)));
           ("index", PList (map PInt (Pd.index df)));
           ("data", PList (map (fun r => PList (map cell_json (snd r)))
                               (rows df))) ]))
  else if String.eqb orient "index" then
    if negb (Table.index_is_unique df) then
      Raise "DataFrame index must be unique for orient='index'."
    else if negb (Table.columns_is_unique df) then
      Raise "DataFrame columns must be unique for orient='index'."
    else
      Ok (PDict (Py.dict_of_items (index_items df)))
  else Raise ("Invalid value '" ++ orient ++ "' for option 'orient'").

(** [d.update(other)] where [other] came from [json.loads]. *)
Definition update (d : Py.dict (pyval F)) (other : pyval F)
  : result (Py.dict (pyval F)) :=
  match other with
  | PDict o => Ok (Py.dict_update d o)
  | _ => Raise "cannot convert dictionary update sequence element"
  end.

(** [pd.read_csv(uploaded_file, chunksize=n)], iterated to the end. *)
Definition read_csv_chunks (bytes : list byte) (n : Z)
  : result (list (DataFrame F)) :=
  result_bind (read_csv bytes) (fun df => Ok (Pd.chunks n df)).

Definition get_download_link (json_data : pyval F) (filename : string)
  : string :=
  let json_str := Json.dumps float_repr 2 json_data in
  let b64 := Utf8.decode_ascii (Base64.b64encode (Utf8.encode json_str)) in
  link_prefix ++ b64 ++ link_suffix filename.

Definition orient_map : Py.dict string :=
  [("Records", "records"); ("Split", "split"); ("Index", "index")].

(** Lines 42-50: load the table, in chunks above 10 MB. *)
Definition load (f : File.t) : ui F (DataFrame F) :=
  if 10 * 1024 * 1024 <? File.size f then
    let chunk_size := 100000 in
    chunks <- UI.call (read_csv_chunks (File.content f) chunk_size) ;;
    df_list <- UI.for_each chunks
                 (fun df_list chunk => UI.ret (df_list ++ [chunk])%list) [] ;;
    UI.call (Pd.concat df_list)
  else UI.call (read_csv (File.content f)).

(** [progress_bar.progress(min(num / den, 1.0))] *)
Definition capped_progress (num den : Z) : event F :=
  if den <=? num then Progress 1 1 else Progress num den.

(** Lines 97-103: one turn of the loop over the chunks. *)
Definition chunk_step (o : orientation) (df_to_convert : DataFrame F)
  (chunk_size total_chunks : Z) (chunks : list (pyval F)) (i : Z)
  : ui F (list (pyval F)) :=
  let chunk := Pd.iloc i (i + chunk_size) df_to_convert in
  orient <- UI.call (getitem orient_map (orientation_label o)) ;;
  chunk_json <- UI.call (to_json_loads orient chunk) ;;
  UI.show (capped_progress (i + chunk_size) (Pd.len df_to_convert)) ;;
  UI.show (StatusText ("Processing chunk "
                       ++ Py.str_of_int (i / chunk_size + 1) ++ "/"
                       ++ Py.str_of_int total_chunks ++ "...")) ;;
  UI.show (Sleep 100) ;;
  UI.ret (chunks ++ [chunk_json])%list.

(** Lines 106-108: one turn of the loop that merges the chunks. *)
Definition merge_step (json_data : Py.dict (pyval F)) (chunk : pyval F)
  : ui F (Py.dict (pyval F)) :=
  UI.call (update json_data chunk).

(** Lines 91-108: the Index shape of a large table, 1000 rows at a time. *)
Definition convert_chunked (o : orientation) (df_to_convert : DataFrame F)
  : ui F (pyval F) :=
  UI.show (StatusText "Processing large dataset in chunks...") ;;
  let chunk_size := 1000 in
  let total_chunks := (Pd.len df_to_convert + chunk_size - 1) / chunk_size in
  chunks <- UI.for_each (Py.range_step (Pd.len df_to_convert) chunk_size)
              (chunk_step o df_to_convert chunk_size total_chunks) [] ;;
  json_data <- UI.for_each chunks merge_step [] ;;
  UI.ret (PDict json_data).

(** Lines 110-112: the whole table in one step. *)
Definition convert_direct (o : orientation) (df_to_convert : DataFrame F)
  : ui F (pyval F) :=
  orient <- UI.call (getitem orient_map (orientation_label o)) ;;
  json_data <- UI.call (to_json_loads orient df_to_convert) ;;
  UI.show (Progress 1 1) ;;
  UI.ret json_data.

(** Line 77 *)
Definition df_to_convert (draw : list nat) (sample_size : option Z)
  (df : DataFrame F) : result (DataFrame F) :=
  match sample_size with
  | None => Ok df
  | Some n => Pd.sample draw n df
  end.

(** Lines 90-112: the chunked path for the Index shape of more than 5000
    rows, the direct path otherwise. *)
Definition convert_inner (o : orientation) (d : DataFrame F)
  : ui F (pyval F) :=
  if String.eqb (orientation_label o) "Index" && (5000 <? Pd.len d)
  then convert_chunked o d
  else convert_direct o d.

(** Lines 75-117 *)
Definition convert (o : orientation) (draw : list nat)
  (sample_size : option Z) (df : DataFrame F) : ui F (pyval F) :=
  UI.show (Spinner "Converting data to JSON...") ;;
  d <- UI.call (df_to_convert draw sample_size df) ;;
  UI.show (Progress 0 1) ;;
  json_data <- convert_inner o d ;;
  UI.show (StatusText "Conversion complete!") ;;
  UI.show (Sleep 500) ;;
  UI.show ProgressEmpty ;;
  UI.show StatusEmpty ;;
  UI.ret json_data.

(** Lines 120-130: the viewer. *)
Definition display (json_data : pyval F) : ui F unit :=
  UI.show (Subheader "JSON Output") ;;
  let json_str := Json.dumps float_repr 2 json_data in
  if 500000 <? Py.len_str json_str then
    UI.show (Warning "JSON output is very large. Showing truncated preview.") ;;
    UI.show (Expander "JSON Preview (truncated)") ;;
    UI.show (Code (Py.slice_to 500000 json_str ++ truncation_marker))
  else
    UI.show (Expander "View JSON") ;;
    UI.show (JsonView json_data).

(** Line 133: the download link. *)
Definition link (f : File.t) (json_data : pyval F) : ui F unit :=
  filename <- UI.call (download_name (File.name f)) ;;
  UI.show (Markdown (get_download_link json_data filename) true).

(** Lines 66-70 *)
Definition sample_size_widget (s : session) (df : DataFrame F)
  : ui F (option Z) :=
  if 1000 <? Pd.len df then
    UI.show (Checkbox "Use full dataset") ;;
    if negb (use_full_dataset s) then
      UI.show (Slider "Sample size" 100 (Z.min 10000 (Pd.len df))
                      (slider_value s)) ;;
      UI.ret (Some (slider_value s))
    else UI.ret None
  else UI.ret None.

(** Lines 40-133: the body of the [try]; it returns the converted value
    when the button was pressed. *)
Definition try_body (s : session) (f : File.t) : ui F (option (pyval F)) :=
  df <- load f ;;
  UI.show (Subheader "CSV Data Preview") ;;
  UI.show (DataframeView (Pd.head 5 df)) ;;
  UI.show (Info ("Total rows: " ++ Py.str_of_int (Pd.len df)
                 ++ ", Total columns: "
                 ++ Py.str_of_int (Z.of_nat (List.length (columns df))))) ;;
  UI.show (Subheader "Conversion Options") ;;
  UI.show (Radio "JSON Structure" ["Records"; "Split"; "Index"]) ;;
  sample_size <- sample_size_widget s df ;;
  UI.show (Button "Convert to JSON") ;;
  if convert_clicked s then
    json_data <- convert (orientation_choice s) (rng_draw s) sample_size df ;;
    display json_data ;;
    link f json_data ;;
    UI.ret (Some json_data)
  else UI.ret None.

(** Lines 135-137 *)
Definition except_handler (e : string) : ui F (option (pyval F)) :=
  UI.show (ErrorBox ("Error: " ++ e)) ;;
  UI.show (Write "Please ensure your CSV file is properly formatted.") ;;
  UI.ret None.

Definition try_statement (s : session) (f : File.t)
  : ui F (option (pyval F)) :=
  UI.try_except (try_body s f) except_handler.

(** The script, top to bottom. *)
Definition main (s : session) : ui F (option (pyval F)) :=
  UI.show (Title "CSV to JSON Converter") ;;
  UI.show (Write "Upload a CSV file and convert it to JSON format") ;;
  json_data <-
    (match uploaded_file s with
     | Some f =>
         UI.show (Write "File Details:") ;;
         UI.show (JsonView (PDict
           [ ("Filename", PStr (File.name f));
             ("FileType", PStr (File.type f));
             ("FileSize", PStr (format_kb (File.size f) ++ " KB")) ])) ;;
         (if 5 * 1024 * 1024 <? File.size f then
            UI.show (Warning "Large file detected. Conversion might take some time.")
          else UI.ret tt) ;;
         UI.show (Spinner "Loading CSV data...") ;;
         try_statement s f
     | None => UI.ret None
     end) ;;
  UI.show (Markdown "---" false) ;;
  UI.show (Markdown "Made with ❤️ using Streamlit" false) ;;
  UI.ret json_data.

(** One run from an empty page: the page and the converted value. *)
Definition run (s : session) : list (event F) * result (option (pyval F)) :=
  main s [].

(** *** Names used in the statements below *)

(** The partial mappings of the chunked path, one per 1000-row slice. *)
Definition index_batches (df : DataFrame F) : list (Py.dict (pyval F)) :=
  map (fun i => index_items (Pd.iloc i (i + 1000) df))
      (Py.range_step (Pd.len df) 1000).

(** What one turn of the chunk loop puts on the page. *)
Definition chunk_events (df : DataFrame F) (cs tot i : Z) : list (event F) :=
  [capped_progress (i + cs) (Pd.len df);
   StatusText ("Processing chunk " ++ Py.str_of_int (i / cs + 1) ++ "/"
               ++ Py.str_of_int tot ++ "...");
   Sleep 100].

(** What lines 114-117 put on the page. *)
Definition closing_events : list (event F) :=
  [StatusText "Conversion complete!"; Sleep 500; ProgressEmpty; StatusEmpty].

(** What the page holds before the [try] when a file [f] is uploaded, and
    what the script adds after it. *)
Definition header_events (f : File.t) : list (event F) :=
  ([ Title "CSV to JSON Converter";
     Write "Upload a CSV file and convert it to JSON format";
     Write "File Details:";
     JsonView (PDict
       [ ("Filename", PStr (File.name f));
         ("FileType", PStr (File.type f));
         ("FileSize", PStr (format_kb (File.size f) ++ " KB")) ]) ]
   ++ (if 5 * 1024 * 1024 <? File.size f
       then [Warning "Large file detected. Conversion might take some time."]
       else [])
   ++ [Spinner "Loading CSV data..."])%list.

Definition footer_events : list (event F) :=
  [Markdown "---" false; Markdown "Made with ❤️ using Streamlit" false].

(** What the [except] branch puts on the page. *)
Definition error_events (e : string) : list (event F) :=
  [ErrorBox ("Error: " ++ e);
   Write "Please ensure your CSV file is properly formatted."].

(** An event that shows no JSON, no link and no error. *)
Definition calm (e : event F) : Prop :=
  shows_json e = false /\ is_error e = false.

(** An event that shows no JSON, no link, no error and no table. *)
Definition quiet (e : event F) : Prop :=
  shows_json e = false /\ is_error e = false /\ shows_table e = false.

End Script.

(* ------------------------------------------------------------------ *)
(** ** Sample inputs *)

Module Examples.

(** Tables without float cells: the float functions are never called. *)
Definition float_json (f : unit) : option unit := Some f.
Definition float_repr (f : unit) : string := "0.0".

(** The table of the CSV text [a,b / 1,x / 2,y]. *)
Definition small : DataFrame unit :=
  mkDataFrame ["a"; "b"] [(0, [CInt 1; CStr "x"]); (1, [CInt 2; CStr "y"])].

(** A parsed table of [n] rows under the header [id,name]. *)
Definition numbered (n : nat) : DataFrame unit :=
  mkDataFrame ["id"; "name"]
    (map (fun i => (Z.of_nat i,
                    [CInt (7 * Z.of_nat i);
                     CStr ("row" ++ Py.str_of_int (Z.of_nat i))]))
         (seq 0 n)).

Definition medium : DataFrame unit := numbered (Z.to_nat 1001).
Definition large : DataFrame unit := numbered (Z.to_nat 5001).

(** A draw of 100 rows out of 1001: positions 1000, 999, ..., 901. *)
Definition last_hundred : list nat := rev (seq 901 100).

Definition upload : File.t := File.mk "my.data.csv" "text/csv" 20480 [].

(** A parser that refuses the upload. *)
Definition failing_read_csv (bytes : list byte) : result (DataFrame unit) :=
  Raise "Error tokenizing data. C error: Expected 2 fields in line 3, saw 3".

Definition clicked : session :=
  mkSession (Some upload) Index true 1000 true [].

Fixpoint repeat_char (c : ascii) (n : nat) : string :=
  match n with
  | O => EmptyString
  | S n' => String c (repeat_char c n')
  end.

(** A value whose text is longer than the preview: a string of 500000
    letters. *)
Definition long_value : pyval unit :=
  PStr (repeat_char "a"%char (Z.to_nat 500000)).

End Examples.

(* ------------------------------------------------------------------ *)
(** ** Names for the parts of a run *)

(** The value of [orient_map] at a choice of the radio button. *)
Definition orient_of (o : orientation) : string :=
  match o with
  | Records => "records"
  | Split => "split"
  | Index => "index"
  end.

(** The text before the first dot of a name. *)
Definition base_name (name : string) : string :=
  match Py.split_on "."%char name with
  | p :: _ => p
  | [] => EmptyString
  end.

Section Parts.
Context {F : Type}.
Variable float_repr : F -> string.

(** What lines 53-63 put on the page. *)
Definition preview_events (df : DataFrame F) : list (event F) :=
  [Subheader "CSV Data Preview";
   DataframeView (Pd.head 5 df);
   Info ("Total rows: " ++ Py.str_of_int (Pd.len df)
         ++ ", Total columns: "
         ++ Py.str_of_int (Z.of_nat (List.length (columns df))));
   Subheader "Conversion Options";
   Radio "JSON Structure" ["Records"; "Split"; "Index"]].

(** What lines 66-70 put on the page, and the sample size they leave. *)
Definition widget_events (s : session) (df : DataFrame F) : list (event F) :=
  if 1000 <? Pd.len df then
    Checkbox "Use full dataset"
    :: (if use_full_dataset s then []
        else [Slider "Sample size" 100 (Z.min 10000 (Pd.len df))
                     (slider_value s)])
  else [].

Definition sample_size_of (s : session) (df : DataFrame F) : option Z :=
  if (1000 <? Pd.len df) && negb (use_full_dataset s)
  then Some (slider_value s)
  else None.

(** What lines 120-130 put on the page. *)
Definition viewer_events (json_data : pyval F) : list (event F) :=
  Subheader "JSON Output"
  :: (if 500000 <? Py.len_str (Json.dumps float_repr 2 json_data)
      then [Warning "JSON output is very large. Showing truncated preview.";
            Expander "JSON Preview (truncated)";
            Code (Py.slice_to 500000 (Json.dumps float_repr 2 json_data)
                  ++ truncation_marker)]
      else [Expander "View JSON"; JsonView json_data]).

(** What line 133 puts on the page. *)
Definition link_event (f : File.t) (json_data : pyval F) : event F :=
  Markdown (get_download_link float_repr json_data
              (base_name (File.name f) ++ ".json")) true.

End Parts.

(** Text made of characters below U+0080. *)
Fixpoint is_ascii (s : string) : bool :=
  match s with
  | EmptyString => true
  | String c s' => (N_of_ascii c <? 128)%N && is_ascii s'
  end.

(** ** Further sample inputs *)

Module MoreExamples.

(** A parser that reads every upload as the table [df]. *)
Definition reads_as (df : DataFrame unit) (bytes : list byte)
  : result (DataFrame unit) := Ok df.

(** The upload is there, the button is not pressed. *)
Definition idle : session :=
  mkSession (Some Examples.upload) Records true 1000 false [].

(** 5001 rows whose labels start again at 0 after 5000 rows. *)
Definition relabelled : DataFrame unit :=
  mkDataFrame ["id"; "name"]
    (map (fun i => (Z.of_nat i mod 5000,
                    [CInt (7 * Z.of_nat i);
                     CStr ("row" ++ Py.str_of_int (Z.of_nat i))]))
         (seq 0 (Z.to_nat 5001))).

End MoreExamples.

(* ================================================================== *)
(** * Properties *)

(** ** Lists *)

Lemma is_unique_NoDup {A} (eqb : A -> A -> bool) (l : list A) :
  (forall x y, eqb x y = true <-> x = y) ->
  is_unique eqb l = true <-> NoDup l.
Proof.
  intros Heqb. induction l as [|x l IH]; simpl.
  - split; [constructor | reflexivity].
  - rewrite andb_true_iff, negb_true_iff, IH. split.
    + intros [Hx Hl]. constructor; [|exact Hl].
      intros Hin. assert (existsb (eqb x) l = true) as E.
      { apply existsb_exists. exists x. split; [exact Hin | now apply Heqb]. }
      congruence.
    + intros H. inversion H as [|? ? Hx Hl]; subst. split; [|exact Hl].
      destruct (existsb (eqb x) l) eqn:E; [|reflexivity].
      apply existsb_exists in E as (y & Hy & Hxy).
      apply Heqb in Hxy. subst y. contradiction.
Qed.

Lemma unique_Z_NoDup (l : list Z) : is_unique Z.eqb l = true <-> NoDup l.
Proof. apply is_unique_NoDup. intros x y. apply Z.eqb_eq. Qed.

Lemma unique_string_NoDup (l : list string) :
  is_unique String.eqb l = true <-> NoDup l.
Proof. apply is_unique_NoDup. intros x y. apply String.eqb_eq. Qed.

Lemma unique_nat_NoDup (l : list nat) :
  is_unique Nat.eqb l = true <-> NoDup l.
Proof. apply is_unique_NoDup. intros x y. apply Nat.eqb_eq. Qed.

Lemma firstn_plus {A} (a b : nat) (l : list A) :
  firstn (a + b) l = (firstn a l ++ firstn b (skipn a l))%list.
Proof.
  revert l. induction a as [|a IH]; intros l; simpl.
  - reflexivity.
  - destruct l as [|x l]; simpl.
    + now rewrite firstn_nil.
    + now rewrite IH.
Qed.

(** Consecutive slices of width [c] put together give the list back. *)
Lemma concat_slices {A} (c : nat) (l : list A) (k s : nat) :
  List.concat (map (fun j => firstn c (skipn (j * c) l)) (seq s k))
  = firstn (k * c) (skipn (s * c) l).
Proof.
  revert s. induction k as [|k IH]; intros s; simpl.
  - reflexivity.
  - rewrite IH, firstn_plus, skipn_skipn. reflexivity.
Qed.

Lemma NoDup_app_inv {A} (l1 l2 : list A) :
  NoDup (l1 ++ l2) ->
  NoDup l1 /\ NoDup l2 /\ (forall x, In x l1 -> ~ In x l2).
Proof.
  induction l1 as [|x l1 IH]; simpl; intros H.
  - repeat split; [constructor | exact H | tauto].
  - inversion H as [|? ? Hx Hl]; subst.
    destruct (IH Hl) as (H1 & H2 & H3).
    repeat split; [| exact H2 |].
    + constructor; [|exact H1]. intros Hin. apply Hx, in_or_app. now left.
    + intros y [->|Hy]; [|now apply H3].
      intros Hin. apply Hx, in_or_app. now right.
Qed.

Lemma NoDup_map_injective {A B} (f : A -> B) (l : list A) :
  (forall x y, f x = f y -> x = y) -> NoDup l -> NoDup (map f l).
Proof.
  intros Hf. induction 1 as [|x l Hx Hl IH]; simpl; constructor; [|exact IH].
  rewrite in_map_iff. intros (y & Hy & Hin).
  apply Hf in Hy. subst y. contradiction.
Qed.

(** A duplicate-free selection from a list leaves a rest. *)
Lemma NoDup_incl_rest {A} (l l' : list A) :
  NoDup l -> incl l l' -> exists r, Permutation (l ++ r) l'.
Proof.
  revert l'. induction l as [|a l IH]; intros l' Hnd Hincl.
  - exists l'. reflexivity.
  - inversion Hnd as [|? ? Ha Hl]; subst.
    destruct (in_split a l') as (l1 & l2 & ->).
    { apply Hincl. now left. }
    destruct (IH (l1 ++ l2)%list Hl) as (r & Hr).
    { intros x Hx. assert (In x (l1 ++ a :: l2)) as Hin.
      { apply Hincl. now right. }
      apply in_app_or in Hin. apply in_or_app.
      destruct Hin as [Hin|[->|Hin]]; [now left | contradiction | now right]. }
    exists r. simpl. rewrite <- Permutation_middle. now constructor.
Qed.

(** ** Integers as text *)

Lemma str_of_int_inj (a b : Z) : Py.str_of_int a = Py.str_of_int b -> a = b.
Proof.
  unfold Py.str_of_int. intros H.
  assert (Some (Z.to_int a) = Some (Z.to_int b)) as E.
  { rewrite <- !NilEmpty.isi. now rewrite H. }
  injection E as E. rewrite <- (DecimalZ.of_to a), <- (DecimalZ.of_to b).
  now rewrite E.
Qed.

Lemma NoDup_map_str_of_int (l : list Z) :
  NoDup l -> NoDup (map Py.str_of_int l).
Proof. apply NoDup_map_injective. exact str_of_int_inj. Qed.

(** ** Dictionaries *)

Lemma dict_set_fresh {V} (d : Py.dict V) k v :
  ~ In k (Py.dict_keys d) -> Py.dict_set d k v = (d ++ [(k, v)])%list.
Proof.
  induction d as [|[k' v'] d IH]; simpl; intros Hk.
  - reflexivity.
  - destruct (String.eqb_spec k k') as [->|Hne].
    + exfalso. apply Hk. now left.
    + rewrite IH; [reflexivity|]. intros Hin. apply Hk. now right.
Qed.

(** Updating with fresh, distinct keys appends them. *)
Lemma dict_update_fresh {V} (other d : Py.dict V) :
  NoDup (Py.dict_keys d ++ Py.dict_keys other) ->
  Py.dict_update d other = (d ++ other)%list.
Proof.
  unfold Py.dict_update. revert d.
  induction other as [|[k v] other IH]; simpl; intros d Hnd.
  - now rewrite app_nil_r.
  - rewrite dict_set_fresh.
    + rewrite IH.
      * now rewrite <- app_assoc.
      * unfold Py.dict_keys in *. rewrite map_app. simpl.
        now rewrite <- app_assoc.
    + apply NoDup_remove_2 in Hnd. intros Hin. apply Hnd.
      apply in_or_app. now left.
Qed.

Lemma dict_of_items_NoDup {V} (items : list (string * V)) :
  NoDup (map fst items) -> Py.dict_of_items items = items.
Proof.
  intros H. unfold Py.dict_of_items. now rewrite dict_update_fresh.
Qed.

(** Merging partial mappings whose keys are all distinct loses nothing. *)
Lemma fold_update_concat {V} (batches : list (Py.dict V)) (d : Py.dict V) :
  NoDup (Py.dict_keys d ++ Py.dict_keys (List.concat batches)) ->
  fold_left Py.dict_update batches d = (d ++ List.concat batches)%list.
Proof.
  revert d. induction batches as [|b bs IH]; simpl; intros d Hnd.
  - now rewrite app_nil_r.
  - unfold Py.dict_keys in *. rewrite map_app, app_assoc in Hnd.
    rewrite dict_update_fresh.
    + rewrite IH.
      * now rewrite <- app_assoc.
      * unfold Py.dict_keys. now rewrite map_app.
    + apply NoDup_app_inv in Hnd. tauto.
Qed.

Lemma dict_get_In {V} (d : Py.dict V) k v :
  NoDup (Py.dict_keys d) -> In (k, v) d -> Py.dict_get k d = Some v.
Proof.
  induction d as [|[k' v'] d IH]; simpl; intros Hnd Hin; [contradiction|].
  inversion Hnd as [|? ? Hk Hd]; subst.
  destruct Hin as [E|Hin].
  - injection E as -> ->. now rewrite String.eqb_refl.
  - destruct (String.eqb_spec k k') as [->|Hne]; [|now apply IH].
    exfalso. apply Hk. change k' with (fst (k', v)). now apply in_map.
Qed.

(** ** Base64 *)

Lemma byte_of_N_to_N (b : byte) : Utf8.byte_of_N (Byte.to_N b) = b.
Proof.
  unfold Utf8.byte_of_N. pose proof (Byte.to_N_bounded b) as Hb.
  rewrite N.mod_small by lia. now rewrite Byte.of_to_N.
Qed.

Lemma below_64 (P : N -> bool) :
  forallb P (map N.of_nat (seq 0 64)) = true ->
  forall n, (n < 64)%N -> P n = true.
Proof.
  intros H n Hn. rewrite forallb_forall in H. apply H.
  apply in_map_iff. exists (N.to_nat n). split; [apply N2Nat.id|].
  apply in_seq. lia.
Qed.

Lemma char_sextet_char (n : N) :
  (n < 64)%N -> Base64.char_sextet (Base64.sextet_char n) = Some n.
Proof.
  intros Hn.
  apply (below_64 (fun n => match Base64.char_sextet (Base64.sextet_char n) with
                            | Some m => N.eqb m n
                            | None => false
                            end)) in Hn; [|vm_compute; reflexivity].
  destruct (Base64.char_sextet (Base64.sextet_char n)); [|discriminate].
  apply N.eqb_eq in Hn. now subst.
Qed.

Lemma sextet_char_not_pad (n : N) :
  (n < 64)%N -> Byte.eqb (Base64.sextet_char n) Base64.pad = false.
Proof.
  intros Hn.
  apply (below_64 (fun n => negb (Byte.eqb (Base64.sextet_char n) Base64.pad)))
    in Hn; [|vm_compute; reflexivity].
  now apply negb_true_iff in Hn.
Qed.

Lemma to_N_lt (b : byte) : (Byte.to_N b < 256)%N.
Proof. pose proof (Byte.to_N_bounded b). lia. Qed.

Local Ltac euclid :=
  unfold Base64.s0, Base64.s1, Base64.s2, Base64.s3,
         Base64.b0, Base64.b1, Base64.b2 in *;
  zify; Z.to_euclidean_division_equations; lia.

Lemma sextets_bounded (a b c : N) :
  (a < 256)%N -> (b < 256)%N -> (c < 256)%N ->
  (Base64.s0 a < 64 /\ Base64.s1 a b < 64
   /\ Base64.s2 b c < 64 /\ Base64.s3 c < 64)%N.
Proof. intros Ha Hb Hc. repeat split; euclid. Qed.

Lemma sextets_bytes (a b c : N) :
  (a < 256)%N -> (b < 256)%N -> (c < 256)%N ->
  Base64.b0 (Base64.s0 a) (Base64.s1 a b) = a
  /\ Base64.b1 (Base64.s1 a b) (Base64.s2 b c) = b
  /\ Base64.b2 (Base64.s2 b c) (Base64.s3 c) = c.
Proof. intros Ha Hb Hc. repeat split; euclid. Qed.

(** Decoding undoes encoding. *)
Lemma b64decode_b64encode (bs : list byte) :
  Base64.b64decode (Base64.b64encode bs) = Some bs.
Proof.
  remember (List.length bs) as n eqn:Hn.
  revert bs Hn. induction n as [n IH] using lt_wf_ind. intros bs Hn.
  destruct bs as [|a [|b [|c rest]]].
  - reflexivity.
  - pose proof (to_N_lt a) as Ha.
    destruct (sextets_bounded (Byte.to_N a) 0 0) as (H0 & H1 & _); try lia.
    destruct (sextets_bytes (Byte.to_N a) 0 0) as (E0 & _); try lia.
    cbn [Base64.b64encode Base64.b64decode].
    rewrite !char_sextet_char by assumption.
    rewrite (@Byte.byte_dec_lb Base64.pad Base64.pad eq_refl). cbv iota. rewrite E0. now rewrite byte_of_N_to_N.
  - pose proof (to_N_lt a) as Ha. pose proof (to_N_lt b) as Hb.
    destruct (sextets_bounded (Byte.to_N a) (Byte.to_N b) 0)
      as (H0 & H1 & H2 & _); try lia.
    destruct (sextets_bytes (Byte.to_N a) (Byte.to_N b) 0)
      as (E0 & E1 & _); try lia.
    cbn [Base64.b64encode Base64.b64decode].
    rewrite !char_sextet_char by assumption.
    rewrite sextet_char_not_pad by assumption.
    rewrite (@Byte.byte_dec_lb Base64.pad Base64.pad eq_refl). cbv iota. rewrite E0, E1.
    now rewrite !byte_of_N_to_N.
  - pose proof (to_N_lt a) as Ha. pose proof (to_N_lt b) as Hb.
    pose proof (to_N_lt c) as Hc.
    destruct (sextets_bounded (Byte.to_N a) (Byte.to_N b) (Byte.to_N c))
      as (H0 & H1 & H2 & H3); try assumption.
    destruct (sextets_bytes (Byte.to_N a) (Byte.to_N b) (Byte.to_N c))
      as (E0 & E1 & E2); try assumption.
    cbn [Base64.b64encode Base64.b64decode].
    rewrite !char_sextet_char by assumption.
    rewrite !sextet_char_not_pad by assumption.
    cbv iota. rewrite E0, E1, E2, !byte_of_N_to_N.
    rewrite (IH (List.length rest)); [reflexivity | | reflexivity].
    subst n. simpl. lia.
Qed.

(** ** The three shapes *)

Section Conversion.
Context {F : Type}.
Variable float_json : F -> option F.

Lemma index_items_keys (df : DataFrame F) :
  Py.dict_keys (index_items float_json df) = map Py.str_of_int (Pd.index df).
Proof.
  unfold index_items, Py.dict_keys, Pd.index. now rewrite !map_map.
Qed.

Lemma to_json_index_unique (df : DataFrame F) :
  Table.index_is_unique df = true ->
  Table.columns_is_unique df = true ->
  to_json_loads float_json "index" df = Ok (PDict (index_items float_json df)).
Proof.
  intros Hi Hc. unfold to_json_loads. simpl String.eqb. cbv iota.
  rewrite Hi, Hc. simpl negb. cbv iota.
  rewrite dict_of_items_NoDup; [reflexivity|].
  change (map fst (index_items float_json df))
    with (Py.dict_keys (index_items float_json df)).
  rewrite index_items_keys. apply NoDup_map_str_of_int.
  now apply unique_Z_NoDup.
Qed.

Lemma to_json_index_inv (df : DataFrame F) v :
  to_json_loads float_json "index" df = Ok v ->
  Table.index_is_unique df = true /\ Table.columns_is_unique df = true.
Proof.
  unfold to_json_loads. simpl String.eqb. cbv iota.
  destruct (Table.index_is_unique df); simpl; [|discriminate].
  destruct (Table.columns_is_unique df); simpl; [|discriminate].
  auto.
Qed.

Lemma iloc_index_unique a b (df : DataFrame F) :
  Table.index_is_unique df = true ->
  Table.index_is_unique (Pd.iloc a b df) = true.
Proof.
  unfold Table.index_is_unique, Pd.index, Pd.iloc. simpl.
  rewrite !unique_Z_NoDup. intros H.
  rewrite <- (firstn_skipn (Z.to_nat a) (rows df)), map_app in H.
  apply NoDup_app_inv in H as (_ & H & _).
  rewrite <- (firstn_skipn (Z.to_nat (b - a)) (skipn (Z.to_nat a) (rows df))),
    map_app in H.
  now apply NoDup_app_inv in H as (H & _ & _).
Qed.

Lemma index_items_iloc a b (df : DataFrame F) :
  index_items float_json (Pd.iloc a b df)
  = firstn (Z.to_nat (b - a)) (skipn (Z.to_nat a) (index_items float_json df)).
Proof.
  unfold index_items, Pd.iloc. simpl. now rewrite skipn_map, firstn_map.
Qed.

Lemma range_step_slices {A} (l : list A) (c : Z) :
  0 < c ->
  List.concat
    (map (fun i => firstn (Z.to_nat (i + c - i)) (skipn (Z.to_nat i) l))
         (Py.range_step (Z.of_nat (List.length l)) c))
  = l.
Proof.
  intros Hc. unfold Py.range_step. rewrite map_map.
  erewrite map_ext.
  - rewrite (concat_slices (Z.to_nat c) l), skipn_O. apply firstn_all2.
    assert (Z.of_nat (List.length l)
            <= (Z.of_nat (List.length l) + c - 1) / c * c) as E.
    { pose proof (Z.div_mod (Z.of_nat (List.length l) + c - 1) c ltac:(lia)).
      pose proof (Z.mod_pos_bound (Z.of_nat (List.length l) + c - 1) c Hc).
      nia. }
    assert (0 <= (Z.of_nat (List.length l) + c - 1) / c).
    { apply Z.div_pos; lia. }
    nia.
  - intros k. cbv beta. f_equal; [f_equal; lia|]. f_equal. nia.
Qed.


Lemma NoDup_concat_disjoint {A} (ls : list (list A)) :
  NoDup (List.concat ls) ->
  forall i j li lj,
    i <> j -> nth_error ls i = Some li -> nth_error ls j = Some lj ->
    forall x, In x li -> ~ In x lj.
Proof.
  induction ls as [|l ls IH]; simpl; intros Hnd i j li lj Hij Hi Hj x Hli Hlj.
  - destruct i; discriminate.
  - apply NoDup_app_inv in Hnd as (_ & Hls & Hdisj).
    destruct i as [|i], j as [|j]; simpl in Hi, Hj.
    + congruence.
    + injection Hi as ->. apply (Hdisj x Hli).
      apply in_concat. exists lj. split; [|exact Hlj].
      now apply nth_error_In with j.
    + injection Hj as ->. apply (Hdisj x Hlj).
      apply in_concat. exists li. split; [|exact Hli].
      now apply nth_error_In with i.
    + apply (IH Hls i j li lj ltac:(congruence) Hi Hj x Hli Hlj).
Qed.

Lemma quiet_progress num den : quiet (@capped_progress F num den).
Proof. unfold capped_progress. now destruct (den <=? num). Qed.

Lemma chunk_events_quiet (df : DataFrame F) cs tot i :
  Forall quiet (chunk_events df cs tot i).
Proof.
  constructor; [apply quiet_progress | repeat constructor].
Qed.

Lemma chunk_step_run (df : DataFrame F) (cs tot i : Z) acc page :
  chunk_step float_json Index df cs tot acc i page
  = match to_json_loads float_json "index" (Pd.iloc i (i + cs) df) with
    | Ok v => ((page ++ chunk_events df cs tot i)%list, Ok (acc ++ [v])%list)
    | Raise e => (page, Raise e)
    end.
Proof.
  unfold chunk_step, UI.bind, UI.call, UI.show, UI.ret, chunk_events.
  change (getitem orient_map (orientation_label Index)) with (@Ok string "index").
  cbv iota beta.
  destruct (to_json_loads float_json "index" (Pd.iloc i (i + cs) df));
    [|reflexivity].
  now rewrite <- !app_assoc.
Qed.

Lemma chunk_loop (df : DataFrame F) (cs tot : Z) (f : Z -> pyval F) :
  forall (starts : list Z) acc page,
    (forall i, In i starts ->
       to_json_loads float_json "index" (Pd.iloc i (i + cs) df) = Ok (f i)) ->
    exists evs,
      UI.for_each starts (chunk_step float_json Index df cs tot) acc page
      = ((page ++ evs)%list, Ok (acc ++ map f starts)%list)
      /\ Forall quiet evs.
Proof.
  induction starts as [|i starts IH]; intros acc page Hok.
  - exists []. simpl. unfold UI.ret. now rewrite !app_nil_r.
  - destruct (IH (acc ++ [f i])%list (page ++ chunk_events df cs tot i)%list)
      as (evs & Hrun & Hq).
    { intros j Hj. apply Hok. now right. }
    exists (chunk_events df cs tot i ++ evs)%list. split.
    + cbn [UI.for_each]. unfold UI.bind.
      rewrite chunk_step_run, (Hok i (or_introl eq_refl)), Hrun.
      now rewrite <- !app_assoc.
    + apply Forall_app. split; [apply chunk_events_quiet | exact Hq].
Qed.

Lemma merge_loop (batches : list (Py.dict (pyval F))) :
  forall acc page,
    UI.for_each (map PDict batches) merge_step acc page
    = (page, Ok (fold_left Py.dict_update batches acc)).
Proof.
  induction batches as [|b bs IH]; intros acc page; simpl.
  - reflexivity.
  - unfold UI.bind, merge_step, UI.call. simpl. apply IH.
Qed.


Lemma concat_index_batches (df : DataFrame F) :
  List.concat (index_batches float_json df) = index_items float_json df.
Proof.
  unfold index_batches.
  erewrite map_ext; [|intros i; apply index_items_iloc].
  unfold Pd.len.
  replace (List.length (rows df))
    with (List.length (index_items float_json df))
    by (unfold index_items; apply length_map).
  apply range_step_slices. lia.
Qed.

Lemma index_items_NoDup (df : DataFrame F) :
  Table.index_is_unique df = true ->
  NoDup (Py.dict_keys (index_items float_json df)).
Proof.
  intros H. rewrite index_items_keys. apply NoDup_map_str_of_int.
  now apply unique_Z_NoDup.
Qed.

Lemma convert_direct_index (df : DataFrame F) page :
  Table.index_is_unique df = true ->
  Table.columns_is_unique df = true ->
  convert_direct float_json Index df page
  = ((page ++ [Progress 1 1])%list, Ok (PDict (index_items float_json df))).
Proof.
  intros Hi Hc. unfold convert_direct, UI.bind, UI.call, UI.show, UI.ret.
  change (getitem orient_map (orientation_label Index)) with (@Ok string "index").
  cbv iota beta. now rewrite to_json_index_unique.
Qed.

Lemma convert_chunked_index (df : DataFrame F) page :
  Table.index_is_unique df = true ->
  Table.columns_is_unique df = true ->
  exists evs,
    convert_chunked float_json Index df page
    = ((page ++ evs)%list, Ok (PDict (index_items float_json df)))
    /\ Forall quiet evs.
Proof.
  intros Hi Hc.
  destruct (chunk_loop df 1000 ((Pd.len df + 1000 - 1) / 1000)
              (fun i => PDict (index_items float_json (Pd.iloc i (i + 1000) df)))
              (Py.range_step (Pd.len df) 1000) []
              (page ++ [StatusText "Processing large dataset in chunks..."])%list)
    as (evs & Hrun & Hq).
  { intros i _. apply to_json_index_unique; [now apply iloc_index_unique|exact Hc]. }
  exists (StatusText "Processing large dataset in chunks..." :: evs).
  split; [|constructor; [repeat constructor | exact Hq]].
  unfold convert_chunked. unfold UI.bind at 1. unfold UI.show at 1.
  cbv zeta. unfold UI.bind at 1. rewrite Hrun. cbn [app].
  rewrite <- (map_map (fun i => index_items float_json (Pd.iloc i (i + 1000) df)) PDict).
  fold (index_batches float_json df).
  unfold UI.bind. rewrite merge_loop. unfold UI.ret.
  rewrite fold_update_concat.
  - rewrite concat_index_batches. cbn [app]. now rewrite <- app_assoc.
  - cbn [Py.dict_keys map app]. rewrite concat_index_batches.
    now apply index_items_NoDup.
Qed.

Lemma convert_unfold o draw sample_size (df : DataFrame F) page :
  convert float_json o draw sample_size df page
  = match df_to_convert draw sample_size df with
    | Raise e => ((page ++ [Spinner "Converting data to JSON..."])%list, Raise e)
    | Ok d =>
        match convert_inner float_json o d
                (page ++ [Spinner "Converting data to JSON..."; Progress 0 1])%list
        with
        | (p, Ok v) => ((p ++ closing_events)%list, Ok v)
        | (p, Raise e) => (p, Raise e)
        end
    end.
Proof.
  unfold convert, convert_inner, UI.bind, UI.call, UI.show, UI.ret, closing_events.
  destruct (df_to_convert draw sample_size df) as [d|e]; [|reflexivity].
  rewrite <- app_assoc. cbn [app].
  match goal with |- context [if ?c then _ else _] => destruct c end;
    match goal with |- context [match ?m with pair _ _ => _ end] =>
      destruct m as [p [v|e]] end;
    try reflexivity; now rewrite <- !app_assoc.
Qed.

Lemma Forall2_map_right {A B} (P : A -> B -> Prop) (g : A -> B) (l : list A) :
  (forall x, In x l -> P x (g x)) -> Forall2 P l (map g l).
Proof.
  induction l as [|x l IH]; simpl; intros H; constructor.
  - apply H. now left.
  - apply IH. intros y Hy. apply H. now right.
Qed.


Lemma parsed_parts (df : DataFrame F) :
  Table.parsed df = true ->
  Table.rectangular df = true
  /\ Table.columns_is_unique df = true
  /\ Table.positional_index df = true.
Proof.
  unfold Table.parsed. rewrite !andb_true_iff. tauto.
Qed.

Lemma rectangular_row (df : DataFrame F) r :
  Table.rectangular df = true -> In r (rows df) ->
  List.length (snd r) = List.length (columns df).
Proof.
  unfold Table.rectangular. rewrite forallb_forall. intros H Hin.
  now apply Nat.eqb_eq, H.
Qed.

Lemma positional_labels (l : list Z) (s n : nat) :
  List.length l = n ->
  forallb (fun p => Z.eqb (fst p) (Z.of_nat (snd p))) (combine l (seq s n))
  = true ->
  l = map Z.of_nat (seq s n).
Proof.
  revert s n. induction l as [|x l IH]; intros s n Hn H.
  - now subst n.
  - destruct n as [|n]; [discriminate|]. simpl in *.
    apply andb_true_iff in H as [Hx Hl]. apply Z.eqb_eq in Hx. subst x.
    f_equal. apply IH; [lia | exact Hl].
Qed.

Lemma positional_index_labels (df : DataFrame F) :
  Table.positional_index df = true ->
  Pd.index df = map Z.of_nat (seq 0 (List.length (rows df))).
Proof.
  unfold Table.positional_index. apply positional_labels.
  unfold Pd.index. apply length_map.
Qed.

Lemma positional_index_unique (df : DataFrame F) :
  Table.positional_index df = true -> Table.index_is_unique df = true.
Proof.
  intros H. unfold Table.index_is_unique. apply unique_Z_NoDup.
  rewrite (positional_index_labels df H).
  apply NoDup_map_injective; [|apply seq_NoDup].
  intros x y. apply Nat2Z.inj.
Qed.

Lemma combine_keys {A B} (l : list A) (l' : list B) :
  List.length l' = List.length l -> map fst (combine l l') = l.
Proof.
  revert l'. induction l as [|x l IH]; intros [|y l'] H; simpl in *;
    try reflexivity; try discriminate.
  f_equal. apply IH. lia.
Qed.

Lemma nth_error_combine_In {A B} (l : list A) (l' : list B) j a b :
  nth_error l j = Some a -> nth_error l' j = Some b -> In (a, b) (combine l l').
Proof.
  revert l l'. induction j as [|j IH]; intros [|x l] [|y l'] Ha Hb;
    simpl in *; try discriminate.
  - injection Ha as ->. injection Hb as ->. now left.
  - right. now apply IH.
Qed.

(** A row of the right width under distinct column names: one member per
    column, in column order, holding the row's cell. *)
Lemma row_object_spec (cols : list string) (cells : list (cell F)) :
  NoDup cols -> List.length cells = List.length cols ->
  exists d,
    row_object float_json cols cells = PDict d
    /\ Py.dict_keys d = cols
    /\ forall j c x,
         nth_error cols j = Some c -> nth_error cells j = Some x ->
         Py.dict_get c d = Some (cell_json float_json x).
Proof.
  intros Hnd Hlen. exists (combine cols (map (cell_json float_json) cells)).
  assert (map fst (combine cols (map (cell_json float_json) cells)) = cols) as K.
  { apply combine_keys. now rewrite length_map. }
  split; [|split].
  - unfold row_object. rewrite dict_of_items_NoDup; [reflexivity|].
    now rewrite K.
  - exact K.
  - intros j c x Hc Hx. apply dict_get_In.
    + unfold Py.dict_keys. now rewrite K.
    + apply nth_error_combine_In with j; [exact Hc|].
      now apply map_nth_error.
Qed.

Lemma to_json_records (df : DataFrame F) :
  Table.columns_is_unique df = true ->
  to_json_loads float_json "records" df
  = Ok (PList (map (fun r => row_object float_json (columns df) (snd r))
                   (rows df))).
Proof.
  intros Hc. unfold to_json_loads. simpl String.eqb. cbv iota.
  now rewrite Hc.
Qed.

Lemma to_json_split (df : DataFrame F) :
  to_json_loads float_json "split" df
  = Ok (PDict [ ("columns", PList (map PStr (columns df)));
                ("index", PList (map PInt (Pd.index df)));
                ("data", PList (map (fun r => PList (map (cell_json float_json) (snd r)))
                                    (rows df))) ]).
Proof. reflexivity. Qed.

Lemma convert_direct_run o (d : DataFrame F) page :
  convert_direct float_json o d page
  = match getitem orient_map (orientation_label o) with
    | Ok orient =>
        match to_json_loads float_json orient d with
        | Ok v => ((page ++ [Progress 1 1])%list, Ok v)
        | Raise e => (page, Raise e)
        end
    | Raise e => (page, Raise e)
    end.
Proof.
  unfold convert_direct, UI.bind, UI.call, UI.show, UI.ret.
  destruct (getitem orient_map (orientation_label o)) as [orient|e];
    [|reflexivity].
  now destruct (to_json_loads float_json orient d).
Qed.



(** *** Sampling *)

Lemma valid_draw_spec (population : nat) (n : Z) (draw : list nat) :
  Table.valid_draw population n draw = true ->
  Z.of_nat (List.length draw) = n
  /\ NoDup draw
  /\ (forall p, In p draw -> (p < population)%nat).
Proof.
  unfold Table.valid_draw. rewrite !andb_true_iff, Z.eqb_eq, unique_nat_NoDup.
  rewrite forallb_forall. intros [[Hn Hnd] Hlt]. repeat split; auto.
  intros p Hp. now apply Nat.ltb_lt, Hlt.
Qed.

Lemma valid_draw_size (population : nat) (n : Z) (draw : list nat) :
  Table.valid_draw population n draw = true ->
  0 <= n <= Z.of_nat population.
Proof.
  intros H. apply valid_draw_spec in H as (Hn & Hnd & Hlt).
  assert (List.length draw <= List.length (seq 0 population))%nat as E.
  { apply NoDup_incl_length; [exact Hnd|].
    intros p Hp. apply in_seq. specialize (Hlt p Hp). lia. }
  rewrite length_seq in E. lia.
Qed.

Lemma take_rows_spec (rs : list (Z * list (cell F))) (ps : list nat) :
  (forall p, In p ps -> (p < List.length rs)%nat) ->
  exists out,
    Pd.take_rows rs ps = Ok out
    /\ Forall2 (fun p r => nth_error rs p = Some r) ps out.
Proof.
  induction ps as [|p ps IH]; intros Hlt.
  - exists []. split; [reflexivity | constructor].
  - destruct IH as (out & Hout & Hall).
    { intros q Hq. apply Hlt. now right. }
    destruct (nth_error rs p) as [r|] eqn:Hr.
    + exists (r :: out). split.
      * simpl. now rewrite Hr, Hout.
      * now constructor.
    + apply nth_error_None in Hr. specialize (Hlt p (or_introl eq_refl)). lia.
Qed.

Lemma sample_spec (df : DataFrame F) (draw : list nat) (n : Z) :
  0 <= n <= Pd.len df ->
  Table.valid_draw (List.length (rows df)) n draw = true ->
  exists out,
    Pd.sample draw n df = Ok (mkDataFrame (columns df) out)
    /\ Forall2 (fun p r => nth_error (rows df) p = Some r) draw out.
Proof.
  intros Hn Hv.
  apply valid_draw_spec in Hv as (_ & _ & Hlt).
  destruct (take_rows_spec (rows df) draw Hlt) as (out & Hout & Hall).
  exists out. split; [|exact Hall].
  unfold Pd.sample, Pd.take.
  replace (n <? 0) with false by (symmetry; apply Z.ltb_ge; lia).
  replace (Pd.len df <? n) with false by (symmetry; apply Z.ltb_ge; lia).
  now rewrite Hout.
Qed.

Lemma Forall2_combine_In {A B} (P : A -> B -> Prop) l l' a b :
  Forall2 P l l' -> In (a, b) (combine l l') -> P a b.
Proof.
  induction 1 as [|x y l l' Hxy Hall IH]; simpl; [contradiction|].
  intros [E|Hin]; [now injection E as -> -> | now apply IH].
Qed.

Lemma combine_values {A B} (l : list A) (l' : list B) :
  List.length l = List.length l' -> map snd (combine l l') = l'.
Proof.
  revert l'. induction l as [|x l IH]; intros [|y l'] H; simpl in *;
    try reflexivity; try discriminate.
  f_equal. apply IH. lia.
Qed.

(** Rows taken at distinct positions are part of the table: together with
    the rows left over they are the table, up to order. *)
Lemma distinct_positions_rest {A} (rs out : list A) (ps : list nat) :
  NoDup ps ->
  Forall2 (fun p r => nth_error rs p = Some r) ps out ->
  exists rest, Permutation (out ++ rest) rs.
Proof.
  intros Hnd Hall.
  pose proof (Forall2_length Hall) as Hlen.
  destruct (NoDup_incl_rest (combine ps out)
                            (combine (seq 0 (List.length rs)) rs))
    as (rest & Hperm).
  - apply NoDup_map_inv with (f := fst). now rewrite combine_keys.
  - intros [p r] Hin.
    pose proof (Forall2_combine_In _ _ _ _ _ Hall Hin) as Hr.
    apply nth_error_combine_In with p; [|exact Hr].
    assert (p < List.length rs)%nat as Hp.
    { apply nth_error_Some. congruence. }
    rewrite nth_error_seq. apply Nat.ltb_lt in Hp. now rewrite Hp.
  - exists (map snd rest).
    apply (Permutation_map snd) in Hperm.
    rewrite map_app, !combine_values in Hperm;
      [exact Hperm | now rewrite length_seq | exact Hlen].
Qed.

Lemma Forall2_In_right {A B} (P : A -> B -> Prop) l l' b :
  Forall2 P l l' -> In b l' -> exists a, In a l /\ P a b.
Proof.
  induction 1 as [|x y l l' Hxy Hall IH]; simpl; [contradiction|].
  intros [->|Hin].
  - exists x. auto.
  - destruct (IH Hin) as (a & Ha & Hab). exists a. auto.
Qed.


(** *** The Index shape of the table that is converted *)

Lemma positional_row_label (df : DataFrame F) p r :
  Table.positional_index df = true ->
  nth_error (rows df) p = Some r -> fst r = Z.of_nat p.
Proof.
  intros Hpos Hr.
  pose proof (map_nth_error fst p (rows df) Hr) as E.
  fold (Pd.index df) in E. rewrite (positional_index_labels df Hpos) in E.
  assert (p < List.length (rows df))%nat as Hp.
  { apply nth_error_Some. congruence. }
  rewrite nth_error_map, nth_error_seq in E.
  apply Nat.ltb_lt in Hp. rewrite Hp in E. simpl in E. congruence.
Qed.

(** A sample of a parsed table keeps, for each row, the position the row
    has in the parsed table. *)
Lemma sampled_labels (df : DataFrame F) draw out :
  Table.positional_index df = true ->
  Forall2 (fun p r => nth_error (rows df) p = Some r) draw out ->
  map fst out = map Z.of_nat draw.
Proof.
  intros Hpos. induction 1 as [|p r ps out Hr Hall IH]; simpl.
  - reflexivity.
  - now rewrite IH, (positional_row_label df p r Hpos Hr).
Qed.

Lemma convert_index_value (d df : DataFrame F) draw sample_size page :
  df_to_convert draw sample_size df = Ok d ->
  Table.index_is_unique d = true ->
  Table.columns_is_unique d = true ->
  snd (convert float_json Index draw sample_size df page)
  = Ok (PDict (index_items float_json d)).
Proof.
  intros Hd Hi Hc. rewrite convert_unfold, Hd. unfold convert_inner.
  cbn [orientation_label]. rewrite String.eqb_refl. cbn [andb].
  destruct (5000 <? Pd.len d).
  - destruct (convert_chunked_index d
                (page ++ [Spinner "Converting data to JSON..."; Progress 0 1])%list
                Hi Hc) as (evs & -> & _).
    reflexivity.
  - now rewrite convert_direct_index.
Qed.

(** What line 77 hands to the converter, for a parsed table and a draw that
    meets the generator's contract. *)
Lemma df_to_convert_spec (df : DataFrame F) draw sample_size :
  Table.parsed df = true ->
  (forall n, sample_size = Some n ->
             Table.valid_draw (List.length (rows df)) n draw = true) ->
  exists d,
    df_to_convert draw sample_size df = Ok d
    /\ columns d = columns df
    /\ Table.index_is_unique d = true
    /\ Table.columns_is_unique d = true
    /\ match sample_size with
       | None => d = df
       | Some n =>
           Pd.len d = n
           /\ Pd.index d = map Z.of_nat draw
           /\ Forall2 (fun p r => nth_error (rows df) p = Some r) draw (rows d)
       end.
Proof.
  intros Hp Hv. apply parsed_parts in Hp as (_ & Hcols & Hpos).
  destruct sample_size as [n|].
  - specialize (Hv n eq_refl).
    pose proof (valid_draw_size _ _ _ Hv) as Hn.
    destruct (sample_spec df draw n Hn Hv) as (out & Hs & Hall).
    apply valid_draw_spec in Hv as (Hlen & Hnd & _).
    pose proof (sampled_labels df draw out Hpos Hall) as Hlab.
    exists (mkDataFrame (columns df) out). cbn [df_to_convert].
    split; [exact Hs|]. split; [reflexivity|]. split; [|split; [exact Hcols|]].
    + unfold Table.index_is_unique, Pd.index. cbn [rows].
      rewrite Hlab. apply unique_Z_NoDup.
      apply NoDup_map_injective; [|exact Hnd]. intros x y. apply Nat2Z.inj.
    + unfold Pd.len, Pd.index. cbn [rows].
      rewrite <- (Forall2_length Hall). auto.
  - exists df. cbn [df_to_convert].
    repeat split; auto using positional_index_unique.
Qed.



End Conversion.

(** ** Text *)

Lemma take_drop_str (n : nat) (s : string) :
  Py.take_str n s ++ Py.drop_str n s = s.
Proof.
  revert s. induction n as [|n IH]; intros [|c s]; simpl; try reflexivity.
  now rewrite IH.
Qed.

Lemma length_take_str (n : nat) (s : string) :
  (n <= String.length s)%nat -> String.length (Py.take_str n s) = n.
Proof.
  revert s. induction n as [|n IH]; intros [|c s]; simpl; intros H;
    try reflexivity; try lia.
  rewrite IH; lia.
Qed.

Lemma drop_str_prefix (p s : string) :
  Py.drop_str (String.length p) (p ++ s) = s.
Proof. induction p as [|c p IH]; simpl; [reflexivity | exact IH]. Qed.

Lemma append_assoc (a b c : string) : (a ++ b) ++ c = a ++ (b ++ c).
Proof. induction a as [|x a IH]; simpl; [reflexivity | now rewrite IH]. Qed.

Lemma split_on_nonempty (sep : ascii) (s : string) :
  exists p ps, Py.split_on sep s = p :: ps.
Proof.
  induction s as [|c s (p & ps & IH)]; simpl.
  - now exists EmptyString, [].
  - destruct (Ascii.eqb c sep).
    + now exists EmptyString, (Py.split_on sep s).
    + rewrite IH. now exists (String c p), ps.
Qed.

(** The script's download name is always defined. *)
Lemma download_name_defined (name : string) :
  exists filename, download_name name = Ok filename.
Proof.
  unfold download_name.
  destruct (split_on_nonempty "."%char name) as (p & ps & ->).
  now exists (p ++ ".json").
Qed.

(** The piece before the first dot. *)
Lemma split_on_first (sep : ascii) (base rest : string) :
  (forall c, In c (list_ascii_of_string base) -> c <> sep) ->
  exists ps, Py.split_on sep (base ++ String sep rest) = base :: ps.
Proof.
  induction base as [|c base IH]; simpl; intros Hno.
  - rewrite Ascii.eqb_refl. now exists (Py.split_on sep rest).
  - destruct (Ascii.eqb_spec c sep) as [->|Hne].
    + exfalso. apply (Hno sep); [now left | reflexivity].
    + destruct IH as (ps & ->); [intros x Hx; apply Hno; now right|].
      now exists ps.
Qed.

(** What the script computes: the name up to its first dot, then [.json]. *)
Lemma download_name_first_dot (base rest : string) :
  (forall c, In c (list_ascii_of_string base) -> c <> "."%char) ->
  download_name (base ++ String "."%char rest) = Ok (base ++ ".json").
Proof.
  intros Hno. unfold download_name.
  now destruct (split_on_first "."%char base rest Hno) as (ps & ->).
Qed.

(** C8: the download name at two upload names.  A name with a dot inside
    its base loses everything after that first dot. *)
Example download_name_cuts_at_first_dot :
  download_name "my.data.csv" = Ok "my.json"
  /\ download_name "data.csv" = Ok "data.json".
Proof. split; reflexivity. Qed.

(** ** The download link *)

Lemma b64encode_no_quote (bs : list byte) :
  Forall (fun b => b <> quote_byte) (Base64.b64encode bs).
Proof.
  assert (forall n, Base64.sextet_char n <> quote_byte) as Hs.
  { intros n. unfold Base64.sextet_char.
    destruct (nth_in_or_default (N.to_nat n) Base64.alphabet Base64.pad)
      as [Hin| ->]; [|discriminate].
    revert Hin. generalize (nth (N.to_nat n) Base64.alphabet Base64.pad).
    apply Forall_forall. unfold Base64.alphabet.
    repeat (constructor; [discriminate|]). constructor. }
  assert (Base64.pad <> quote_byte) as Hp by discriminate.
  remember (List.length bs) as n eqn:Hn.
  revert bs Hn. induction n as [n IH] using lt_wf_ind. intros bs Hn.
  destruct bs as [|a [|b [|c rest]]]; cbn [Base64.b64encode].
  - constructor.
  - repeat constructor; auto.
  - repeat constructor; auto.
  - repeat (constructor; [apply Hs|]).
    apply (IH (List.length rest)); [subst n; simpl; lia | reflexivity].
Qed.

Lemma until_quote_bytes (bs : list byte) (t : string) :
  Forall (fun b => b <> quote_byte) bs ->
  until_quote (string_of_list_byte bs ++ dquote ++ t) = string_of_list_byte bs.
Proof.
  unfold string_of_list_byte.
  induction 1 as [|b bs Hb Hall IH]; simpl.
  - reflexivity.
  - destruct (Ascii.eqb_spec (ascii_of_byte b) "034"%char) as [E|_].
    + exfalso. apply Hb. rewrite <- (byte_of_ascii_of_byte b), E. reflexivity.
    + f_equal. exact IH.
Qed.

Section Output.
Context {F : Type}.
Variable float_repr : F -> string.

Lemma link_payload_get_download_link (json_data : pyval F) filename :
  link_payload (get_download_link float_repr json_data filename)
  = Utf8.decode_ascii
      (Base64.b64encode (Utf8.encode (Json.dumps float_repr 2 json_data))).
Proof.
  unfold link_payload, get_download_link, Utf8.decode_ascii.
  cbv zeta. rewrite drop_str_prefix. unfold link_suffix.
  now rewrite until_quote_bytes by apply b64encode_no_quote.
Qed.

Lemma link_decodes (json_data : pyval F) filename :
  downloaded_bytes (get_download_link float_repr json_data filename)
  = Some (Utf8.encode (Json.dumps float_repr 2 json_data)).
Proof.
  unfold downloaded_bytes. rewrite link_payload_get_download_link.
  unfold Utf8.ascii_bytes, Utf8.decode_ascii.
  rewrite list_byte_of_string_of_list_byte. apply b64decode_b64encode.
Qed.


Lemma display_run (json_data : pyval F) page :
  display float_repr json_data page
  = ((page ++ Subheader "JSON Output"
           :: (if 500000 <? Py.len_str (Json.dumps float_repr 2 json_data)
               then [Warning "JSON output is very large. Showing truncated preview.";
                     Expander "JSON Preview (truncated)";
                     Code (Py.slice_to 500000 (Json.dumps float_repr 2 json_data)
                           ++ truncation_marker)]
               else [Expander "View JSON"; JsonView json_data]))%list,
     Ok tt).
Proof.
  unfold display, UI.bind, UI.show. cbv zeta.
  destruct (500000 <? Py.len_str (Json.dumps float_repr 2 json_data));
    now rewrite <- !app_assoc.
Qed.

Lemma link_run (f : File.t) (json_data : pyval F) page :
  exists filename,
    download_name (File.name f) = Ok filename
    /\ link float_repr f json_data page
       = ((page ++ [Markdown (get_download_link float_repr json_data filename) true])%list,
          Ok tt).
Proof.
  destruct (download_name_defined (File.name f)) as (filename & Hname).
  exists filename. split; [exact Hname|].
  unfold link, UI.bind, UI.call, UI.show. now rewrite Hname.
Qed.

(** C7: the viewer and the link of one conversion.  The link always decodes
    to the whole text.  A text of more than 500000 characters is shown as
    its first 500000 characters followed by the truncation marker; a text of
    at most 500000 characters is shown as the whole structure. *)
Theorem preview_is_cut_download_is_whole
  (f : File.t) (json_data : pyval F) page :
  let json_str := Json.dumps float_repr 2 json_data in
  exists viewer href,
    UI.bind (display float_repr json_data)
            (fun _ => link float_repr f json_data) page
    = ((page ++ Subheader "JSON Output" :: viewer ++ [Markdown href true])%list,
       Ok tt)
    /\ downloaded_bytes href = Some (Utf8.encode json_str)
    /\ (500000 < Py.len_str json_str ->
        exists shown rest,
          viewer = [Warning "JSON output is very large. Showing truncated preview.";
                    Expander "JSON Preview (truncated)";
                    Code (shown ++ truncation_marker)]
          /\ json_str = shown ++ rest
          /\ Py.len_str shown = 500000)
    /\ (Py.len_str json_str <= 500000 ->
        viewer = [Expander "View JSON"; JsonView json_data]).
Proof.
  intros json_str.
  set (viewer := if 500000 <? Py.len_str json_str
                 then [Warning "JSON output is very large. Showing truncated preview.";
                       Expander "JSON Preview (truncated)";
                       Code (Py.slice_to 500000 json_str ++ truncation_marker)]
                 else [Expander "View JSON"; @JsonView F json_data]).
  destruct (link_run f json_data (page ++ Subheader "JSON Output" :: viewer)%list)
    as (filename & _ & Hlink).
  exists viewer, (get_download_link float_repr json_data filename).
  split; [|split; [apply link_decodes|split]].
  - unfold UI.bind. rewrite display_run. fold json_str. fold viewer.
    rewrite Hlink. now rewrite <- app_assoc.
  - intros Hlen. exists (Py.slice_to 500000 json_str),
                        (Py.drop_str (Z.to_nat 500000) json_str).
    subst viewer. apply Z.ltb_lt in Hlen as Hlt. rewrite Hlt.
    split; [reflexivity|]. split.
    + unfold Py.slice_to. now rewrite take_drop_str.
    + unfold Py.slice_to, Py.len_str in *. rewrite length_take_str; lia.
  - intros Hlen. subst viewer.
    now replace (500000 <? Py.len_str json_str) with false
      by (symmetry; apply Z.ltb_ge; lia).
Qed.

End Output.

(** ** Exceptions *)

Section Errors.
Context {F : Type}.
Variable float_json : F -> option F.
Variable float_repr : F -> string.
Variable read_csv : list byte -> result (DataFrame F).

Lemma appends_ret {A} (P : event F -> Prop) (a : A) : UI.appends P (UI.ret a).
Proof. intros page. exists []. simpl. now rewrite app_nil_r. Qed.

Lemma appends_call {A} (P : event F -> Prop) (r : result A) :
  UI.appends P (UI.call r).
Proof. intros page. exists []. simpl. now rewrite app_nil_r. Qed.

Lemma appends_show (P : event F -> Prop) (e : event F) :
  P e -> UI.appends P (UI.show e).
Proof. intros He page. exists [e]. simpl. auto. Qed.

Lemma appends_bind {A B} (P : event F -> Prop) (m : ui F A) (k : A -> ui F B) :
  UI.appends P m -> (forall a, UI.appends P (k a)) -> UI.appends P (UI.bind m k).
Proof.
  intros Hm Hk page. destruct (Hm page) as (evs & Hpage & Hevs).
  unfold UI.bind. destruct (m page) as [page' [a|e]]; simpl in Hpage; subst page'.
  - destruct (Hk a (page ++ evs)%list) as (evs' & Hpage' & Hevs').
    exists (evs ++ evs')%list. rewrite Hpage', app_assoc.
    split; [reflexivity | now apply Forall_app].
  - now exists evs.
Qed.

Lemma appends_for_each {A S} (P : event F -> Prop) (xs : list A)
  (body : S -> A -> ui F S) :
  (forall acc x, UI.appends P (body acc x)) ->
  forall acc, UI.appends P (UI.for_each xs body acc).
Proof.
  intros Hbody. induction xs as [|x xs IH]; intros acc; simpl.
  - apply appends_ret.
  - apply appends_bind; [apply Hbody | exact IH].
Qed.

Lemma calm_progress num den : calm (@capped_progress F num den).
Proof. unfold capped_progress. now destruct (den <=? num). Qed.

Local Ltac appends_steps :=
  repeat first
    [ apply appends_ret
    | apply appends_call
    | apply appends_show; first [apply calm_progress | now split]
    | apply appends_for_each; intros
    | apply appends_bind; [|intros]
    | match goal with |- UI.appends _ (if ?c then _ else _) => destruct c end ].

Lemma load_appends_nothing (f : File.t) :
  UI.appends (fun _ => False) (load read_csv f).
Proof. unfold load. appends_steps. Qed.

Lemma load_page (f : File.t) page : fst (load read_csv f page) = page.
Proof.
  destruct (load_appends_nothing f page) as (evs & -> & Hevs).
  destruct Hevs as [|e evs []]. apply app_nil_r.
Qed.

Lemma convert_appends_calm o draw sample_size (df : DataFrame F) :
  UI.appends calm (convert float_json o draw sample_size df).
Proof.
  unfold convert, convert_inner, convert_chunked, convert_direct,
    chunk_step, merge_step.
  appends_steps.
Qed.

Lemma sample_size_widget_run (s : session) (df : DataFrame F) page :
  exists evs sample_size,
    sample_size_widget s df page = ((page ++ evs)%list, Ok sample_size)
    /\ Forall calm evs.
Proof.
  unfold sample_size_widget, UI.bind, UI.show, UI.ret.
  destruct (1000 <? Pd.len df); [destruct (use_full_dataset s)|]; simpl.
  - exists [Checkbox "Use full dataset"], None. repeat constructor.
  - exists [Checkbox "Use full dataset";
            Slider "Sample size" 100 (Z.min 10000 (Pd.len df)) (slider_value s)],
           (Some (slider_value s)).
    split; [now rewrite <- app_assoc | repeat constructor].
  - exists [], None. split; [now rewrite app_nil_r | constructor].
Qed.

(** An exception leaves the body of the [try] before any JSON is shown;
    when it comes from loading, before anything is shown. *)
Lemma try_body_raises (s : session) (f : File.t) page e :
  snd (try_body float_json float_repr read_csv s f page) = Raise e ->
  exists evs,
    fst (try_body float_json float_repr read_csv s f page) = (page ++ evs)%list
    /\ Forall calm evs
    /\ (snd (load read_csv f page) = Raise e -> evs = []).
Proof.
  unfold try_body, UI.bind, UI.show, UI.ret.
  pose proof (load_page f page) as Hload.
  destruct (load read_csv f page) as [page0 [df|e0]]; simpl in Hload; subst page0.
  2:{ simpl. intros _. exists []. rewrite app_nil_r. repeat split. constructor. }
  match goal with |- context [sample_size_widget s df ?p] =>
    destruct (sample_size_widget_run s df p) as (wevs & sample_size & -> & Hw)
  end.
  destruct (convert_clicked s); [|discriminate].
  match goal with |- context [convert _ _ _ _ _ ?p] =>
    destruct (convert_appends_calm (orientation_choice s) (rng_draw s)
                sample_size df p) as (cevs & Hpage & Hc);
    destruct (convert float_json (orientation_choice s) (rng_draw s)
                sample_size df p) as [page1 [json_data|e1]]
  end; simpl in Hpage; subst page1.
  - rewrite display_run.
    match goal with |- context [link float_repr f json_data ?p] =>
      destruct (link_run float_repr f json_data p) as (filename & _ & ->) end.
    discriminate.
  - simpl. intros _.
    exists ([Subheader "CSV Data Preview";
             DataframeView (Pd.head 5 df);
             Info ("Total rows: " ++ Py.str_of_int (Pd.len df)
                   ++ ", Total columns: "
                   ++ Py.str_of_int (Z.of_nat (List.length (columns df))));
             Subheader "Conversion Options";
             Radio "JSON Structure" ["Records"; "Split"; "Index"]]
            ++ wevs ++ [Button "Convert to JSON"] ++ cevs)%list.
    split; [now rewrite <- !app_assoc|]. split; [|discriminate].
    repeat (apply Forall_app; split); auto; repeat constructor.
Qed.

Lemma main_page (s : session) (f : File.t) :
  uploaded_file s = Some f ->
  run float_json float_repr read_csv s
  = (let (page, r) := try_statement float_json float_repr read_csv s f
                        (header_events f) in
     match r with
     | Ok json_data => ((page ++ footer_events)%list, Ok json_data)
     | Raise e => (page, Raise e)
     end).
Proof.
  intros Hf. unfold run, main, header_events, footer_events. rewrite Hf.
  unfold UI.bind, UI.show, UI.ret. cbn [app].
  destruct (5 * 1024 * 1024 <? File.size f); cbn [app];
    match goal with |- context [try_statement _ _ _ s f ?p] =>
      destruct (try_statement float_json float_repr read_csv s f p)
        as [page [json_data|e]] end;
    try reflexivity; now rewrite <- app_assoc.
Qed.

(** C9: when the body of the [try] raises [e], while loading or while
    converting, the page is the header, then events that show neither JSON
    nor a link nor an error, then one error box with the message and the
    fixed hint, then the footer; the run returns no converted value.  When
    loading raised, nothing at all stands between the header and the error
    box.  The error box is the only one on the page. *)
Theorem exception_shows_error_only (s : session) (f : File.t) (e : string) :
  uploaded_file s = Some f ->
  snd (try_body float_json float_repr read_csv s f (header_events f)) = Raise e ->
  exists evs,
    run float_json float_repr read_csv s
    = ((header_events f ++ evs ++ error_events e ++ footer_events)%list,
       Ok None)
    /\ Forall calm evs
    /\ (snd (load read_csv f (header_events f)) = Raise e -> evs = [])
    /\ Forall (fun ev => shows_json ev = false)
              (evs ++ error_events e ++ footer_events)
    /\ filter is_error (fst (run float_json float_repr read_csv s))
       = [ErrorBox ("Error: " ++ e)].
Proof.
  intros Hf Hraise.
  destruct (try_body_raises s f (header_events f) e Hraise)
    as (evs & Hpage & Hcalm & Hload).
  exists evs.
  assert (run float_json float_repr read_csv s
          = ((header_events f ++ evs ++ error_events e ++ footer_events)%list,
             Ok None)) as Hrun; [|split; [exact Hrun|]].
  2:{ split; [exact Hcalm|]. split; [exact Hload|]. split.
      - apply Forall_app. split.
        + eapply Forall_impl; [|exact Hcalm]. now intros ev [H _].
        + repeat constructor.
      - rewrite Hrun. cbn [fst]. rewrite !filter_app.
        replace (filter is_error evs) with (@nil (event F)).
        + unfold header_events. rewrite !filter_app.
          now destruct (5 * 1024 * 1024 <? File.size f).
        + symmetry. clear - Hcalm. induction Hcalm as [|ev evs [_ H] _ IH].
          * reflexivity.
          * simpl. now rewrite H. }
  rewrite (main_page s f Hf). unfold try_statement, UI.try_except.
  destruct (try_body float_json float_repr read_csv s f (header_events f))
    as [page r]. cbn [fst snd] in Hpage, Hraise. subst page r.
  unfold except_handler, UI.bind, UI.show, UI.ret, error_events. cbv iota beta.
  rewrite <- !app_assoc. reflexivity.
Qed.

End Errors.

(** ** The statements at sample inputs *)








Lemma preview_is_cut_download_is_whole_witness :
  exists shown href,
    fst (UI.bind (display Examples.float_repr Examples.long_value)
                 (fun _ => link Examples.float_repr Examples.upload
                                Examples.long_value) [])
    = [Subheader "JSON Output";
       Warning "JSON output is very large. Showing truncated preview.";
       Expander "JSON Preview (truncated)";
       Code (shown ++ truncation_marker);
       Markdown href true]
    /\ Py.len_str shown = 500000
    /\ downloaded_bytes href
       = Some (Utf8.encode (Json.dumps Examples.float_repr 2 Examples.long_value)).
Proof.
  destruct (preview_is_cut_download_is_whole Examples.float_repr
              Examples.upload Examples.long_value [])
    as (viewer & href & Hrun & Hdl & Hcut & _).
  destruct Hcut as (shown & rest & Hviewer & _ & Hlen).
  - vm_compute. reflexivity.
  - exists shown, href. rewrite Hrun, Hviewer. auto.
Defined.

Lemma exception_shows_error_only_witness :
  exists evs,
    run Examples.float_json Examples.float_repr Examples.failing_read_csv
        Examples.clicked
    = ((header_events Examples.upload ++ evs
          ++ error_events
               "Error tokenizing data. C error: Expected 2 fields in line 3, saw 3"
          ++ footer_events)%list,
       Ok None)
    /\ evs = [].
Proof.
  destruct (exception_shows_error_only Examples.float_json Examples.float_repr
              Examples.failing_read_csv Examples.clicked Examples.upload
              "Error tokenizing data. C error: Expected 2 fields in line 3, saw 3")
    as (evs & Hrun & _ & Hload & _).
  - reflexivity.
  - reflexivity.
  - exists evs. split; [exact Hrun | now apply Hload].
Defined.

(* ------------------------------------------------------------------ *)
(** * Further properties of the script *)

(** ** Loading *)

Lemma chunk_rows_concat {F} (n fuel : nat) (rs : list (Z * list (cell F))) :
  (0 < n)%nat -> (List.length rs < fuel)%nat ->
  List.concat (Pd.chunk_rows fuel n rs) = rs.
Proof.
  intros Hn. revert rs. induction fuel as [|fuel IH]; intros rs Hlen; [lia|].
  cbn [Pd.chunk_rows].
  destruct (skipn n rs) as [|r rest] eqn:Hskip.
  - cbn [List.concat]. rewrite app_nil_r.
    rewrite <- (firstn_skipn n rs) at 2. now rewrite Hskip, app_nil_r.
  - cbn [List.concat]. rewrite IH.
    + rewrite <- Hskip. apply firstn_skipn.
    + pose proof (length_skipn n rs) as E. rewrite Hskip in E. simpl in *. lia.
Qed.

Lemma concat_chunks {F} (n : Z) (df : DataFrame F) :
  0 < n -> Pd.concat (Pd.chunks n df) = Ok df.
Proof.
  intros Hn. unfold Pd.chunks.
  assert (List.concat (Pd.chunk_rows (S (List.length (rows df))) (Z.to_nat n)
                                     (rows df)) = rows df) as E.
  { apply chunk_rows_concat; lia. }
  destruct (Pd.chunk_rows (S (List.length (rows df))) (Z.to_nat n) (rows df))
    as [|c cs] eqn:Hc.
  - simpl in Hc. destruct (skipn (Z.to_nat n) (rows df)); discriminate.
  - unfold Pd.concat. cbn [map columns].
    rewrite map_map. cbn [rows]. rewrite map_id, E. now destruct df.
Qed.

Section Loading.
Context {F : Type}.
Variable read_csv : list byte -> result (DataFrame F).

Lemma collect_loop (chunks acc : list (DataFrame F)) (page : list (event F)) :
  UI.for_each chunks (fun df_list chunk => UI.ret (df_list ++ [chunk])%list)
              acc page
  = (page, Ok (acc ++ chunks)%list).
Proof.
  revert acc. induction chunks as [|c cs IH]; intros acc; simpl.
  - unfold UI.ret. now rewrite app_nil_r.
  - unfold UI.bind, UI.ret. rewrite IH. now rewrite <- app_assoc.
Qed.

Lemma load_run (f : File.t) (page : list (event F)) :
  load read_csv f page = (page, read_csv (File.content f)).
Proof.
  unfold load. destruct (10 * 1024 * 1024 <? File.size f); [|reflexivity].
  cbv zeta. unfold UI.bind, UI.call, read_csv_chunks.
  destruct (read_csv (File.content f)) as [df|e]; [|reflexivity].
  cbn [result_bind]. rewrite collect_loop. cbn [app].
  now rewrite concat_chunks.
Qed.


End Loading.

(** ** The page of a run *)

Lemma download_name_base (name : string) :
  download_name name = Ok (base_name name ++ ".json").
Proof.
  unfold download_name, base_name.
  now destruct (split_on_nonempty "."%char name) as (p & ps & ->).
Qed.

Section Runs.
Context {F : Type}.
Variable float_json : F -> option F.
Variable float_repr : F -> string.
Variable read_csv : list byte -> result (DataFrame F).

Lemma sample_size_widget_eq (s : session) (df : DataFrame F) page :
  sample_size_widget s df page
  = ((page ++ widget_events s df)%list, Ok (sample_size_of s df)).
Proof.
  unfold sample_size_widget, widget_events, sample_size_of,
    UI.bind, UI.show, UI.ret.
  destruct (1000 <? Pd.len df); [destruct (use_full_dataset s)|]; simpl.
  - reflexivity.
  - now rewrite <- app_assoc.
  - now rewrite app_nil_r.
Qed.

Lemma display_eq (json_data : pyval F) page :
  display float_repr json_data page
  = ((page ++ viewer_events float_repr json_data)%list, Ok tt).
Proof. apply display_run. Qed.

Lemma link_eq (f : File.t) (json_data : pyval F) page :
  link float_repr f json_data page
  = ((page ++ [link_event float_repr f json_data])%list, Ok tt).
Proof.
  unfold link, link_event, UI.bind, UI.call, UI.show.
  now rewrite download_name_base.
Qed.

(** The body of the [try], case by case. *)
Lemma try_body_run (s : session) (f : File.t) page :
  try_body float_json float_repr read_csv s f page
  = match read_csv (File.content f) with
    | Raise e => (page, Raise e)
    | Ok df =>
        let shown := (page ++ preview_events df ++ widget_events s df
                           ++ [Button "Convert to JSON"])%list in
        if convert_clicked s then
          match convert float_json (orientation_choice s) (rng_draw s)
                        (sample_size_of s df) df shown with
          | (p, Ok json_data) =>
              ((p ++ viewer_events float_repr json_data
                  ++ [link_event float_repr f json_data])%list,
               Ok (Some json_data))
          | (p, Raise e) => (p, Raise e)
          end
        else (shown, Ok None)
    end.
Proof.
  unfold try_body. unfold UI.bind at 1. rewrite load_run.
  destruct (read_csv (File.content f)) as [df|e]; [|reflexivity].
  unfold UI.bind at 1 2 3 4 5. unfold UI.show at 1 2 3 4 5. cbv iota beta.
  unfold UI.bind at 1. rewrite sample_size_widget_eq.
  unfold UI.bind at 1. unfold UI.show at 1. cbv iota beta zeta.
  unfold preview_events. rewrite <- !app_assoc. cbn [app].
  destruct (convert_clicked s); [|reflexivity].
  unfold UI.bind at 1.
  match goal with |- context [convert _ _ _ _ _ ?p] =>
    destruct (convert float_json (orientation_choice s) (rng_draw s)
                (sample_size_of s df) df p) as [p' [json_data|e]]
  end; [|reflexivity].
  unfold UI.bind. rewrite display_eq, link_eq. unfold UI.ret.
  now rewrite <- !app_assoc.
Qed.

(** The script from the first line to the last, for an uploaded file. *)
Lemma run_uploaded (s : session) (f : File.t) :
  uploaded_file s = Some f ->
  run float_json float_repr read_csv s
  = match try_body float_json float_repr read_csv s f (header_events f) with
    | (page, Ok json_data) => ((page ++ footer_events)%list, Ok json_data)
    | (page, Raise e) =>
        ((page ++ error_events e ++ footer_events)%list, Ok None)
    end.
Proof.
  intros Hf. rewrite (main_page float_json float_repr read_csv s f Hf).
  unfold try_statement, UI.try_except.
  destruct (try_body float_json float_repr read_csv s f (header_events f))
    as [page [json_data|e]]; [reflexivity|].
  unfold except_handler, UI.bind, UI.show, UI.ret, error_events.
  cbv iota beta. now rewrite <- !app_assoc.
Qed.

(** X2: a run never ends in an uncaught exception, and its page always
    ends with the two footer lines. *)
Theorem run_never_raises (s : session) :
  exists evs json_data,
    run float_json float_repr read_csv s
    = ((evs ++ footer_events)%list, Ok json_data).
Proof.
  destruct (uploaded_file s) as [f|] eqn:Hf.
  - rewrite (run_uploaded s f Hf).
    destruct (try_body float_json float_repr read_csv s f (header_events f))
      as [page [json_data|e]].
    + now exists page, json_data.
    + exists (page ++ error_events e)%list, None. now rewrite <- app_assoc.
  - exists [Title "CSV to JSON Converter";
            Write "Upload a CSV file and convert it to JSON format"], None.
    unfold run, main. rewrite Hf. reflexivity.
Qed.

Lemma getitem_orient_map (o : orientation) :
  getitem orient_map (orientation_label o) = Ok (orient_of o).
Proof. now destruct o. Qed.

(** The converted value is what the table writer gives for the chosen shape,
    on either path. *)
Lemma convert_value (o : orientation) draw sample_size (df d : DataFrame F) page :
  df_to_convert draw sample_size df = Ok d ->
  Table.index_is_unique d = true ->
  Table.columns_is_unique d = true ->
  exists json_data,
    to_json_loads float_json (orient_of o) d = Ok json_data
    /\ snd (convert float_json o draw sample_size df page) = Ok json_data.
Proof.
  intros Hd Hi Hc. destruct o.
  - exists (PList (map (fun r => row_object float_json (columns d) (snd r))
                       (rows d))).
    split; [now apply to_json_records|].
    rewrite convert_unfold, Hd. unfold convert_inner. cbn [orientation_label].
    change ("Records" =? "Index")%string with false. cbn [andb].
    rewrite convert_direct_run, getitem_orient_map. cbn [orient_of].
    now rewrite to_json_records.
  - eexists. split; [apply to_json_split|].
    rewrite convert_unfold, Hd. unfold convert_inner. cbn [orientation_label].
    change ("Split" =? "Index")%string with false. cbn [andb].
    rewrite convert_direct_run, getitem_orient_map. cbn [orient_of].
    now rewrite to_json_split.
  - exists (PDict (index_items float_json d)).
    split; [now apply to_json_index_unique|].
    now apply convert_index_value.
Qed.


(** X4: while the button is not pressed nothing is converted: the run
    returns no value, and after the header the page shows no JSON viewer, no
    code block and no link. *)
Theorem nothing_is_converted_before_the_click (s : session) (f : File.t) :
  uploaded_file s = Some f ->
  convert_clicked s = false ->
  exists evs,
    run float_json float_repr read_csv s
    = ((header_events f ++ evs ++ footer_events)%list, Ok None)
    /\ Forall (fun ev => shows_json ev = false) (evs ++ footer_events).
Proof.
  intros Hf Hclick. rewrite (run_uploaded s f Hf), try_body_run, Hclick.
  destruct (read_csv (File.content f)) as [df|e].
  - cbv zeta.
    exists (preview_events df ++ widget_events s df
              ++ [Button "Convert to JSON"])%list.
    split; [now rewrite <- !app_assoc|].
    repeat (apply Forall_app; split); try (repeat constructor).
    unfold widget_events.
    destruct (1000 <? Pd.len df); [destruct (use_full_dataset s)|];
      repeat constructor.
  - exists (error_events e). split; [reflexivity|]. repeat constructor.
Qed.

(** X5: a table of at most 1000 rows is never sampled: the checkbox, the
    slider and the generator have no part in the run. *)
Theorem small_tables_are_not_sampled (s : session) (f : File.t)
  (df : DataFrame F) (full : bool) (size : Z) (draw : list nat) :
  uploaded_file s = Some f ->
  read_csv (File.content f) = Ok df ->
  Pd.len df <= 1000 ->
  run float_json float_repr read_csv s
  = run float_json float_repr read_csv
        (mkSession (Some f) (orientation_choice s) full size
                   (convert_clicked s) draw).
Proof.
  intros Hf Hread Hlen.
  rewrite (run_uploaded s f Hf).
  rewrite (run_uploaded (mkSession (Some f) (orientation_choice s) full size
                                   (convert_clicked s) draw) f eq_refl).
  rewrite !try_body_run, Hread.
  unfold widget_events, sample_size_of.
  replace (1000 <? Pd.len df) with false by (symmetry; apply Z.ltb_ge; lia).
  cbn [andb orientation_choice convert_clicked rng_draw].
  destruct (convert_clicked s); [|reflexivity].
  now rewrite !convert_unfold.
Qed.

End Runs.

(** ** The chunk loop *)

Lemma range_step_In (stop step i : Z) :
  0 < step -> 0 <= stop ->
  In i (Py.range_step stop step) ->
  exists k, i = Z.of_nat k * step /\ 0 <= i < stop.
Proof.
  intros Hstep Hstop Hin. unfold Py.range_step in Hin.
  apply in_map_iff in Hin as (k & <- & Hk). exists k. split; [reflexivity|].
  apply in_seq in Hk.
  assert (Z.of_nat k < (stop + step - 1) / step) as Hlt.
  { destruct (Z.le_gt_cases ((stop + step - 1) / step) 0) as [Hz|Hz].
    - rewrite Z2Nat.inj_0 in Hk || (replace (Z.to_nat ((stop + step - 1) / step))
        with 0%nat in Hk by lia); lia.
    - lia. }
  pose proof (Z.div_mod (stop + step - 1) step ltac:(lia)) as Hdm.
  pose proof (Z.mod_pos_bound (stop + step - 1) step Hstep) as Hmod.
  nia.
Qed.

Section Chunks.
Context {F : Type}.
Variable float_json : F -> option F.

Lemma len_iloc (df : DataFrame F) (i c : Z) :
  0 <= i -> 0 <= c ->
  Pd.len (Pd.iloc i (i + c) df) = Z.max 0 (Z.min c (Pd.len df - i)).
Proof.
  intros Hi Hc. unfold Pd.len, Pd.iloc. cbn [rows].
  rewrite length_firstn, length_skipn. lia.
Qed.

(** X6: the chunked path cuts the table into ceil(N / 1000) slices; every
    slice has at least one row and at most 1000, exactly 1000 unless it is
    the last; the slices, put end to end, are the rows of the table. *)
Theorem chunk_slices_cover_the_table (df : DataFrame F) :
  Z.of_nat (List.length (Py.range_step (Pd.len df) 1000))
  = (Pd.len df + 999) / 1000
  /\ Forall (fun i =>
               1 <= Pd.len (Pd.iloc i (i + 1000) df) <= 1000
               /\ Pd.len (Pd.iloc i (i + 1000) df)
                  = Z.min 1000 (Pd.len df - i))
            (Py.range_step (Pd.len df) 1000)
  /\ List.concat (map (fun i => rows (Pd.iloc i (i + 1000) df))
                      (Py.range_step (Pd.len df) 1000))
     = rows df.
Proof.
  assert (0 <= Pd.len df) as HN by (unfold Pd.len; lia).
  split; [|split].
  - unfold Py.range_step. rewrite length_map, length_seq.
    replace (Pd.len df + 1000 - 1) with (Pd.len df + 999) by lia.
    apply Z2Nat.id. apply Z.div_pos; lia.
  - apply Forall_forall. intros i Hin.
    destruct (range_step_In (Pd.len df) 1000 i ltac:(lia) HN Hin) as (k & _ & Hi).
    rewrite len_iloc by lia. lia.
  - unfold Pd.iloc. cbn [rows]. unfold Pd.len. apply range_step_slices. lia.
Qed.

Lemma chunk_loop_events (df : DataFrame F) (cs tot : Z) (f : Z -> pyval F) :
  forall (starts : list Z) acc page,
    (forall i, In i starts ->
       to_json_loads float_json "index" (Pd.iloc i (i + cs) df) = Ok (f i)) ->
    UI.for_each starts (chunk_step float_json Index df cs tot) acc page
    = ((page ++ List.concat (map (chunk_events df cs tot) starts))%list,
       Ok (acc ++ map f starts)%list).
Proof.
  induction starts as [|i starts IH]; intros acc page Hok.
  - simpl. unfold UI.ret. now rewrite !app_nil_r.
  - cbn [UI.for_each]. unfold UI.bind.
    rewrite chunk_step_run, (Hok i (or_introl eq_refl)).
    rewrite IH by (intros j Hj; apply Hok; now right).
    cbn [map List.concat]. now rewrite <- !app_assoc.
Qed.

(** The report of chunk number [k + 1] out of [total]. *)
Lemma chunk_events_at (df : DataFrame F) (k : nat) :
  Z.of_nat k < (Pd.len df + 999) / 1000 ->
  chunk_events df 1000 ((Pd.len df + 999) / 1000) (Z.of_nat k * 1000)
  = [ (if Z.of_nat k + 1 <? (Pd.len df + 999) / 1000
       then Progress (1000 * (Z.of_nat k + 1)) (Pd.len df)
       else Progress 1 1);
      StatusText ("Processing chunk " ++ Py.str_of_int (Z.of_nat k + 1) ++ "/"
                  ++ Py.str_of_int ((Pd.len df + 999) / 1000) ++ "...");
      Sleep 100 ].
Proof.
  intros Hk. unfold chunk_events, capped_progress.
  rewrite Z.div_mul by lia.
  pose proof (Z.div_mod (Pd.len df + 999) 1000 ltac:(lia)) as Hdm.
  pose proof (Z.mod_pos_bound (Pd.len df + 999) 1000 ltac:(lia)) as Hmod.
  f_equal.
  destruct (Z.ltb_spec (Z.of_nat k + 1) ((Pd.len df + 999) / 1000)) as [Hlt|Hge].
  - replace (Pd.len df <=? Z.of_nat k * 1000 + 1000) with false
      by (symmetry; apply Z.leb_gt; lia).
    f_equal. lia.
  - now replace (Pd.len df <=? Z.of_nat k * 1000 + 1000) with true
      by (symmetry; apply Z.leb_le; lia).
Qed.

(** X7: what the chunked path reports.  After the opening status line, each
    chunk adds a progress value, the line "Processing chunk k/total..." with
    k counting from 1 to total = ceil(N / 1000), and a pause of 100 ms.  The
    progress value of chunk k is 1000 k / N, a proper fraction, for every
    chunk but the last, and 1 for the last. *)
Theorem chunked_path_reports_each_chunk (df : DataFrame F) page :
  Table.index_is_unique df = true ->
  Table.columns_is_unique df = true ->
  let total := (Pd.len df + 999) / 1000 in
  fst (convert_chunked float_json Index df page)
  = (page ++ StatusText "Processing large dataset in chunks..."
       :: List.concat
            (map (fun k =>
                    [ (if Z.of_nat k + 1 <? total
                       then Progress (1000 * (Z.of_nat k + 1)) (Pd.len df)
                       else Progress 1 1);
                      StatusText ("Processing chunk "
                                  ++ Py.str_of_int (Z.of_nat k + 1) ++ "/"
                                  ++ Py.str_of_int total ++ "...");
                      Sleep 100 ])
                 (seq 0 (Z.to_nat total))))%list
  /\ forall k, Z.of_nat k + 1 < total ->
               0 < 1000 * (Z.of_nat k + 1) < Pd.len df.
Proof.
  intros Hi Hc total. split.
  - unfold convert_chunked. cbv zeta. unfold UI.bind at 1. unfold UI.show at 1.
    unfold UI.bind at 1.
    rewrite (chunk_loop_events df 1000 _
               (fun i => PDict (index_items float_json (Pd.iloc i (i + 1000) df))))
      by (intros i _; apply to_json_index_unique;
          [now apply iloc_index_unique | exact Hc]).
    cbn [app].
    rewrite <- (map_map (fun i => index_items float_json (Pd.iloc i (i + 1000) df))
                        PDict).
    unfold UI.bind. rewrite merge_loop. unfold UI.ret. cbn [fst].
    rewrite <- app_assoc. cbn [app]. do 3 f_equal.
    unfold Py.range_step. rewrite map_map.
    replace (Pd.len df + 1000 - 1) with (Pd.len df + 999) by lia.
    fold total. apply map_ext_in. intros k Hk. apply in_seq in Hk.
    subst total. apply chunk_events_at. lia.
  - intros k Hk. subst total.
    pose proof (Z.div_mod (Pd.len df + 999) 1000 ltac:(lia)) as Hdm.
    pose proof (Z.mod_pos_bound (Pd.len df + 999) 1000 ltac:(lia)) as Hmod.
    lia.
Qed.

End Chunks.

(** ** Repeated labels *)

Lemma dict_set_keys {V} (d : Py.dict V) k v :
  Py.dict_keys (Py.dict_set d k v)
  = if existsb (String.eqb k) (Py.dict_keys d)
    then Py.dict_keys d
    else (Py.dict_keys d ++ [k])%list.
Proof.
  induction d as [|[k' v'] d IH]; simpl.
  - reflexivity.
  - destruct (String.eqb k k'); simpl; [reflexivity|].
    rewrite IH. now destruct (existsb (String.eqb k) (Py.dict_keys d)).
Qed.

Lemma dict_set_keeps_NoDup {V} (d : Py.dict V) k v :
  NoDup (Py.dict_keys d) -> NoDup (Py.dict_keys (Py.dict_set d k v)).
Proof.
  intros Hnd. rewrite dict_set_keys.
  destruct (existsb (String.eqb k) (Py.dict_keys d)) eqn:E; [exact Hnd|].
  apply NoDup_app; [exact Hnd | repeat constructor; auto |].
  intros x Hx [->|[]].
  assert (existsb (String.eqb x) (Py.dict_keys d) = true) as E'.
  { apply existsb_exists. exists x. split; [exact Hx | apply String.eqb_refl]. }
  congruence.
Qed.

Lemma dict_set_keys_incl {V} (d : Py.dict V) k v x :
  In x (Py.dict_keys (Py.dict_set d k v)) -> x = k \/ In x (Py.dict_keys d).
Proof.
  rewrite dict_set_keys.
  destruct (existsb (String.eqb k) (Py.dict_keys d)); [now right|].
  intros Hin. apply in_app_or in Hin as [Hin|[<-|[]]]; auto.
Qed.

Lemma dict_update_keys {V} (other d : Py.dict V) :
  NoDup (Py.dict_keys d) ->
  NoDup (Py.dict_keys (Py.dict_update d other))
  /\ incl (Py.dict_keys (Py.dict_update d other))
          (Py.dict_keys d ++ Py.dict_keys other).
Proof.
  unfold Py.dict_update. revert d.
  induction other as [|[k v] other IH]; simpl; intros d Hnd.
  - split; [exact Hnd|]. now rewrite app_nil_r.
  - destruct (IH (Py.dict_set d k v) (dict_set_keeps_NoDup d k v Hnd))
      as (H1 & H2).
    split; [exact H1|]. intros x Hx. apply H2 in Hx.
    apply in_app_or in Hx as [Hx|Hx].
    + apply dict_set_keys_incl in Hx as [->|Hx]; apply in_or_app;
        [right; now left | now left].
    + apply in_or_app. right. now right.
Qed.

(** A merge never holds a key twice and never invents one. *)
Lemma fold_update_keys {V} (batches : list (Py.dict V)) (d : Py.dict V) :
  NoDup (Py.dict_keys d) ->
  NoDup (Py.dict_keys (fold_left Py.dict_update batches d))
  /\ incl (Py.dict_keys (fold_left Py.dict_update batches d))
          (Py.dict_keys d ++ Py.dict_keys (List.concat batches)).
Proof.
  revert d. induction batches as [|b bs IH]; simpl; intros d Hnd.
  - split; [exact Hnd|]. now rewrite app_nil_r.
  - destruct (dict_update_keys b d Hnd) as (H1 & H2).
    destruct (IH (Py.dict_update d b) H1) as (H3 & H4).
    split; [exact H3|]. intros x Hx. apply H4 in Hx.
    unfold Py.dict_keys in *. rewrite map_app.
    apply in_app_or in Hx as [Hx|Hx].
    + apply H2 in Hx. apply in_app_or in Hx as [Hx|Hx];
        apply in_or_app; [now left | right; apply in_or_app; now left].
    + apply in_or_app. right. apply in_or_app. now right.
Qed.

Section RepeatedLabels.
Context {F : Type}.
Variable float_json : F -> option F.



End RepeatedLabels.

(** ** The download name *)

Lemma split_on_absent (sep : ascii) (s : string) :
  (forall c, In c (list_ascii_of_string s) -> c <> sep) ->
  Py.split_on sep s = [s].
Proof.
  induction s as [|c s IH]; simpl; intros Hno.
  - reflexivity.
  - destruct (Ascii.eqb_spec c sep) as [->|Hne].
    + exfalso. apply (Hno sep); [now left | reflexivity].
    + rewrite IH; [reflexivity|]. intros x Hx. apply Hno. now right.
Qed.

(** X10: the download name is the upload name up to its first dot, followed
    by [.json]: a name without a dot is kept whole, and of a name with dots
    only the text before the first dot is kept.  The name is always
    defined. *)
Theorem download_name_keeps_text_before_first_dot (base rest : string) :
  (forall c, In c (list_ascii_of_string base) -> c <> "."%char) ->
  download_name base = Ok (base ++ ".json")
  /\ download_name (base ++ String "."%char rest) = Ok (base ++ ".json").
Proof.
  intros Hno. split.
  - unfold download_name. now rewrite split_on_absent.
  - now apply download_name_first_dot.
Qed.

(** ** The size of the payload *)

Lemma length_string_of_list_byte (bs : list byte) :
  String.length (string_of_list_byte bs) = List.length bs.
Proof.
  unfold string_of_list_byte. induction bs as [|b bs IH]; simpl; [|rewrite IH];
    reflexivity.
Qed.

Lemma length_b64encode (bs : list byte) :
  List.length (Base64.b64encode bs) = (4 * ((List.length bs + 2) / 3))%nat.
Proof.
  remember (List.length bs) as n eqn:Hn.
  revert bs Hn. induction n as [n IH] using lt_wf_ind. intros bs Hn.
  destruct bs as [|a [|b [|c rest]]]; cbn [Base64.b64encode List.length] in *;
    subst n; try reflexivity.
  rewrite (IH (List.length rest)) by (simpl; lia || reflexivity).
  replace (S (S (S (List.length rest))) + 2)%nat
    with (1 * 3 + (List.length rest + 2))%nat by lia.
  rewrite Nat.div_add_l by lia. lia.
Qed.

Section Payload.
Context {F : Type}.
Variable float_repr : F -> string.

(** X11: the payload of the download link has four characters for every
    three bytes of the text, the last group filled up: 4 * ceil(n / 3)
    characters for n bytes. *)
Theorem payload_length (json_data : pyval F) (filename : string) :
  String.length (link_payload (get_download_link float_repr json_data filename))
  = (4 * ((List.length (Utf8.encode (Json.dumps float_repr 2 json_data)) + 2)
          / 3))%nat.
Proof.
  rewrite link_payload_get_download_link. unfold Utf8.decode_ascii.
  now rewrite length_string_of_list_byte, length_b64encode.
Qed.

End Payload.

(** ** ASCII text *)

Lemma is_ascii_append (a b : string) :
  is_ascii (a ++ b) = is_ascii a && is_ascii b.
Proof.
  induction a as [|c a IH]; simpl; [reflexivity|].
  now rewrite IH, andb_assoc.
Qed.

Lemma is_ascii_concat (sep : string) (l : list string) :
  is_ascii sep = true -> Forall (fun s => is_ascii s = true) l ->
  is_ascii (String.concat sep l) = true.
Proof.
  intros Hsep. induction 1 as [|s l Hs Hl IH]; simpl; [reflexivity|].
  destruct l as [|s' l]; [exact Hs|].
  rewrite !is_ascii_append, Hs, Hsep. exact IH.
Qed.

Lemma escape_char_ascii (c : ascii) : is_ascii (Json.escape_char c) = true.
Proof. destruct c as [[] [] [] [] [] [] [] []]; reflexivity. Qed.

Lemma escape_ascii (s : string) : is_ascii (Json.escape s) = true.
Proof.
  induction s as [|c s IH]; simpl; [reflexivity|].
  now rewrite is_ascii_append, escape_char_ascii, IH.
Qed.

Lemma encode_str_ascii (s : string) : is_ascii (Json.encode_str s) = true.
Proof.
  unfold Json.encode_str. rewrite !is_ascii_append, escape_ascii. reflexivity.
Qed.

Lemma str_of_int_ascii (z : Z) : is_ascii (Py.str_of_int z) = true.
Proof.
  unfold Py.str_of_int.
  assert (forall u, is_ascii (NilEmpty.string_of_uint u) = true) as Hu.
  { induction u; simpl; auto. }
  destruct (Z.to_int z); simpl; apply Hu.
Qed.

Lemma spaces_ascii (n : nat) : is_ascii (Json.spaces n) = true.
Proof. induction n as [|n IH]; simpl; auto. Qed.

Lemma newline_indent_ascii (indent level : nat) :
  is_ascii (Json.newline_indent indent level) = true.
Proof.
  unfold Json.newline_indent. rewrite is_ascii_append, spaces_ascii.
  reflexivity.
Qed.

Lemma encode_char_ascii (c : ascii) :
  (N_of_ascii c <? 128)%N = true -> Utf8.encode_char c = [byte_of_ascii c].
Proof.
  destruct c as [b0 b1 b2 b3 b4 b5 b6 [|]].
  - destruct b0, b1, b2, b3, b4, b5, b6; discriminate.
  - intros _. destruct b0, b1, b2, b3, b4, b5, b6; reflexivity.
Qed.

(** The bytes of ASCII text: one byte per character. *)
Lemma encode_ascii (s : string) :
  is_ascii s = true -> Utf8.encode s = list_byte_of_string s.
Proof.
  unfold list_byte_of_string.
  induction s as [|c s IH]; simpl; [reflexivity|].
  rewrite andb_true_iff. intros [Hc Hs].
  now rewrite (encode_char_ascii c Hc), IH.
Qed.

Section AsciiText.
Context {F : Type}.
Variable float_repr : F -> string.
Hypothesis float_repr_ascii : forall f, is_ascii (float_repr f) = true.

Lemma dumps_at_ascii :
  forall (v : pyval F) (indent level : nat),
    is_ascii (Json.dumps_at float_repr indent level v) = true.
Proof.
  fix IH 1. intros v indent level. destruct v as [| [|] | z | f | s | l | d].
  - reflexivity.
  - reflexivity.
  - reflexivity.
  - apply str_of_int_ascii.
  - apply float_repr_ascii.
  - apply encode_str_ascii.
  - destruct l as [|x l]; [reflexivity|].
    cbn [Json.dumps_at].
    rewrite !is_ascii_append, !newline_indent_ascii.
    rewrite is_ascii_concat; [reflexivity | |].
    + now rewrite is_ascii_append, newline_indent_ascii.
    + generalize (x :: l). intros l'.
      induction l' as [|y l' IHl]; simpl; constructor; [apply IH | exact IHl].
  - destruct d as [|kv d]; [reflexivity|].
    cbn [Json.dumps_at].
    rewrite !is_ascii_append, !newline_indent_ascii.
    rewrite is_ascii_concat; [reflexivity | |].
    + now rewrite is_ascii_append, newline_indent_ascii.
    + generalize (kv :: d). intros d'.
      induction d' as [|[k y] d' IHd]; cbn [map]; constructor; [|exact IHd].
      now rewrite !is_ascii_append, encode_str_ascii, IH.
Qed.


End AsciiText.

(** ** The file size in the details *)

Lemma two_digits_length (x : Z) :
  0 <= x < 100 -> String.length (two_digits x) = 2%nat.
Proof.
  intros Hx.
  assert (forallb (fun k => Nat.eqb (String.length (two_digits (Z.of_nat k))) 2)
                  (seq 0 100) = true) as Hall by (vm_compute; reflexivity).
  rewrite forallb_forall in Hall.
  specialize (Hall (Z.to_nat x)). rewrite Z2Nat.id in Hall by lia.
  apply Nat.eqb_eq, Hall, in_seq. lia.
Qed.


(** ** The three shapes of one table *)

Section Shapes.
Context {F : Type}.
Variable float_json : F -> option F.


End Shapes.

(** ** The further statements at sample inputs *)


Lemma nothing_is_converted_before_the_click_witness :
  snd (run Examples.float_json Examples.float_repr
           (MoreExamples.reads_as Examples.small) MoreExamples.idle)
  = Ok None.
Proof.
  destruct (nothing_is_converted_before_the_click Examples.float_json
              Examples.float_repr (MoreExamples.reads_as Examples.small)
              MoreExamples.idle Examples.upload eq_refl eq_refl)
    as (evs & Hrun & _).
  now rewrite Hrun.
Defined.

Lemma small_tables_are_not_sampled_witness :
  run Examples.float_json Examples.float_repr
      (MoreExamples.reads_as Examples.small) Examples.clicked
  = run Examples.float_json Examples.float_repr
        (MoreExamples.reads_as Examples.small)
        (mkSession (Some Examples.upload) Index false 100 true
                   Examples.last_hundred).
Proof.
  apply (small_tables_are_not_sampled Examples.float_json Examples.float_repr
           (MoreExamples.reads_as Examples.small) Examples.clicked
           Examples.upload Examples.small false 100 Examples.last_hundred).
  - reflexivity.
  - reflexivity.
  - vm_compute. discriminate.
Defined.

Lemma chunked_path_reports_each_chunk_witness :
  exists evs,
    fst (convert_chunked Examples.float_json Index Examples.medium [])
    = StatusText "Processing large dataset in chunks..." :: evs
    /\ List.length evs = 6%nat.
Proof.
  destruct (chunked_path_reports_each_chunk Examples.float_json
              Examples.medium []) as (Hpage & _).
  - vm_compute. reflexivity.
  - reflexivity.
  - rewrite Hpage. eexists. split; [reflexivity|]. vm_compute. reflexivity.
Defined.



Lemma download_name_keeps_text_before_first_dot_witness :
  download_name "data" = Ok "data.json"
  /\ download_name "data.2024.csv" = Ok "data.json".
Proof.
  apply (download_name_keeps_text_before_first_dot "data" "2024.csv").
  intros c Hc. simpl in Hc.
  repeat (destruct Hc as [<-|Hc]; [discriminate|]). contradiction.
Defined.




